(** * ecgTrainer: the epoch driver of [train.py]

    A shallow embedding of the class [ecgTrainer] (construction, one training
    pass, one validation pass, the epoch loop) together with the Python
    primitives it relies on ([str.format], [os.path.join], [range], true
    division), and the properties of the counters, the checkpoint files and
    the logged metrics. *)

From Stdlib Require Import QArith Ascii String.
From stdpp Require Import gmap strings list pretty.

Local Open Scope Z_scope.
Local Open Scope string_scope.
Local Open Scope list_scope.

(** ** Python primitives *)

Module Py.

(** [range(a, b)] on integers. *)
Definition range (a b : Z) : list Z :=
  map (fun i : nat => a + Z.of_nat i) (seq 0 (Z.to_nat (b - a))).

(** A run of [n] copies of the fill character ["0"]. *)
Fixpoint zeros (n : nat) : string :=
  match n with
  | O => EmptyString
  | S n' => String "0"%char (zeros n')
  end.

(** [format(s, "0>w")]: right-align [s] in a field of width [w], filling
    with ["0"]; a longer [s] is kept whole. *)
Definition rjust0 (w : nat) (s : string) : string :=
  zeros (w - String.length s) +:+ s.

(** ["{:0>8}".format(n)] for an integer [n]; [pretty] is [str(n)]. *)
Definition format_0_8 (n : Z) : string := rjust0 8 (pretty n).

(** [posixpath.join(a, *p)]. *)
Definition starts_with_sep (s : string) : bool :=
  match s with
  | String c _ => if decide (c = "/"%char) then true else false
  | EmptyString => false
  end.

Fixpoint ends_with_sep (s : string) : bool :=
  match s with
  | EmptyString => false
  | String c EmptyString => if decide (c = "/"%char) then true else false
  | String _ s' => ends_with_sep s'
  end.

Definition join_step (path b : string) : string :=
  if starts_with_sep b then b
  else if orb (if decide (path = EmptyString) then true else false) (ends_with_sep path)
       then path +:+ b
       else path +:+ "/" +:+ b.

Definition join (a : string) (p : list string) : string :=
  fold_left join_step p a.

End Py.

(** ** Exceptions and results

    The exceptions the trainer can meet: a missing configuration key, a
    value of the wrong type, a checkpoint path that names no file, a division
    by zero in the metric reduction, whatever a batch iterator raises, and
    whatever a call into the framework or the file system raises
    ([ValueError], [RuntimeError], [OSError], ..., by name). *)

Inductive exn : Type :=
| KeyError (key : string)
| TypeError
| FileNotFoundError
| ZeroDivisionError
| LoaderError (msg : string)
| OtherError (name : string).

Inductive result (A : Type) : Type :=
| Ok (a : A)
| Raise (e : exn).
Arguments Ok {A} a.
Arguments Raise {A} e.

Definition rbind {A B} (r : result A) (k : A -> result B) : result B :=
  match r with
  | Ok a => k a
  | Raise e => Raise e
  end.

Notation "'let?' x ':=' c 'in' k" := (rbind c (fun x => k))
  (at level 10, x pattern, c at level 100, k at level 200).

(** ** The tensor framework, as far as the trainer sees it

    Floating-point numbers, the network, the optimizer and the batches are
    external collaborators: the trainer only moves their values around.
    Their calls can raise; which ones do is given by the environment of the
    run: [setup_fault] for the calls of the constructor, the ending of a
    [Feed] (below) for the calls made on a batch. *)

(** The external calls of [__init__], in the order they are made. *)
Inductive setup_step : Type :=
| MakeLogDir        (* os.makedirs(self.log_dir, exist_ok=True) *)
| MakePthDir        (* os.makedirs(self.pth_dir, exist_ok=True) *)
| Writer            (* SummaryWriter(log_dir=self.log_dir) *)
| Net               (* ecgNet, called with the configuration *)
| Optimizer         (* torch.optim.Adam(self.model.parameters(), lr) *)
| Criterion         (* nn.CrossEntropyLoss().to(device) *)
| TrainDataset      (* EcgDataset1D(train_json, mapping_json) *)
| TrainLoader       (* .get_dataloader(batch_size=..., num_workers=...) *)
| ValDataset        (* EcgDataset1D(val_json, mapping_json) *)
| ValLoader.        (* .get_dataloader(batch_size=..., num_workers=...) *)

Class Torch : Type := {
  float : Type;
  float_of_int : Z -> float;
  fadd : float -> float -> float;
  fdiv : float -> float -> float;
  float_bool : float -> bool;            (* bool(x): x != 0.0 *)
  Model : Type;                          (* model.state_dict() *)
  Optim : Type;                          (* optimizer.state_dict() *)
  Batch : Type;
  Scores : Type;
  forward : Model -> bool -> Batch -> Scores;   (* model(inputs), train/eval mode *)
  criterion : Scores -> Batch -> float;         (* criterion(...).item() *)
  topk1 : Scores -> list Z;                     (* topk(k=1)[1].view(-1) *)
  batch_class : Batch -> list Z;                (* batch["class"].numpy() *)
  backward_step : Optim -> Model -> Batch -> Scores -> Optim * Model;
                                                (* zero_grad; backward; step *)
  interrupted : Optim -> Model -> Batch -> Optim * Model;
    (* the parameters left by a training batch whose processing raises *)
  setup_fault : setup_step -> option exn
    (* the exception, if any, that a call of the constructor raises *)
}.

Section Trainer.

Context `{T : Torch}.

(** ** Data model *)

(** A value of the flat JSON configuration. *)
Inductive json : Type :=
| JNull
| JBool (b : bool)
| JInt (z : Z)
| JFloat (f : float)
| JStr (s : string).

(** [bool(v)]. *)
Definition truthy (v : json) : bool :=
  match v with
  | JNull => false
  | JBool b => b
  | JInt z => if decide (z = 0) then false else true
  | JFloat f => float_bool f
  | JStr s => if decide (s = EmptyString) then false else true
  end.

(** An integer argument of [range]: [int] and its subclass [bool]. *)
Definition py_index (v : json) : result Z :=
  match v with
  | JInt z => Ok z
  | JBool b => Ok (Z.b2z b)
  | _ => Raise TypeError
  end.

Definition py_str (v : json) : result string :=
  match v with
  | JStr s => Ok s
  | _ => Raise TypeError
  end.

Definition getitem (d : gmap string json) (key : string) : result json :=
  match d !! key with
  | Some v => Ok v
  | None => Raise (KeyError key)
  end.

(** How the loop over a loader ends: the iterator is exhausted; or the
    iterator raises; or it yields one more batch and a call made on that
    batch (device transfer, forward pass, criterion, backward pass,
    optimizer step) raises. *)
Inductive ending : Type :=
| Exhausted
| IteratorRaises (e : exn)
| BatchRaises (b : Batch) (e : exn).

(** One iteration over a loader: the batches that are yielded and processed
    to the end of the loop body, in order, and how the loop ends. *)
Record Feed : Type := { fd_batches : list Batch; fd_end : ending }.

(** The exception that ends the loop, if any. *)
Definition fd_fault (feed : Feed) : option exn :=
  match fd_end feed with
  | Exhausted => None
  | IteratorRaises e => Some e
  | BatchRaises _ e => Some e
  end.

(** A batch loader: [len(loader)], what its k-th iteration yields, and the
    number of iterations started so far.  The trainer reads the length and
    the batches separately ([len(self.train_loader)] and [enumerate]), so
    the two are kept apart here; an iteration may differ from the one before
    (shuffling, a read error). *)
Record Loader : Type := {
  ld_len : nat;
  ld_feed : nat -> Feed;
  ld_iters : nat
}.

Record Checkpoint : Type := {
  ck_state_dict : Model;
  ck_optimizer : Optim;
  ck_epoch : Z;
  ck_total_iter : Z
}.

Inductive scalar : Type :=
| SFloat (x : float)
| SRat (q : Q).

Inductive line : Type :=
| LEpoch (n : Z)
| LIter (i : Z) (n : nat) (loss : float)
| LTrainLoss (x : float)
| LTrainAcc (q : Q)
| LValLoss (x : float)
| LValAcc (q : Q).

Inductive event : Type :=
| Print (l : line)
| AddScalar (tag : string) (v : scalar) (step : Z)
| Save (path : string) (ck : Checkpoint).

Record ecgTrainer : Type := {
  config : gmap string json;
  exp_name : string;
  log_dir : string;
  pth_dir : string;
  model : Model;
  training : bool;
  optimizer : Optim;
  train_loader : Loader;
  val_loader : Loader;
  training_epoch : Z;
  total_iter : Z;
  epochs : json
}.

(** Persistent storage (the checkpoint files by path) and the calls of
    [print], [self.writer.add_scalar] and [save_checkpoint] made so far,
    oldest first.  The progress indicator that [tqdm] draws on the standard
    error stream during validation is not part of it: when it redraws depends
    on the clock. *)
Record World : Type := {
  files : gmap string Checkpoint;
  trace : list event
}.

Definition set_training (b : bool) (s : ecgTrainer) : ecgTrainer :=
  {| config := config s; exp_name := exp_name s; log_dir := log_dir s;
     pth_dir := pth_dir s; model := model s; training := b;
     optimizer := optimizer s; train_loader := train_loader s;
     val_loader := val_loader s; training_epoch := training_epoch s;
     total_iter := total_iter s; epochs := epochs s |}.

Definition set_params (om : Optim * Model) (s : ecgTrainer) : ecgTrainer :=
  {| config := config s; exp_name := exp_name s; log_dir := log_dir s;
     pth_dir := pth_dir s; model := snd om; training := training s;
     optimizer := fst om; train_loader := train_loader s;
     val_loader := val_loader s; training_epoch := training_epoch s;
     total_iter := total_iter s; epochs := epochs s |}.

Definition set_train_loader (l : Loader) (s : ecgTrainer) : ecgTrainer :=
  {| config := config s; exp_name := exp_name s; log_dir := log_dir s;
     pth_dir := pth_dir s; model := model s; training := training s;
     optimizer := optimizer s; train_loader := l;
     val_loader := val_loader s; training_epoch := training_epoch s;
     total_iter := total_iter s; epochs := epochs s |}.

Definition set_val_loader (l : Loader) (s : ecgTrainer) : ecgTrainer :=
  {| config := config s; exp_name := exp_name s; log_dir := log_dir s;
     pth_dir := pth_dir s; model := model s; training := training s;
     optimizer := optimizer s; train_loader := train_loader s;
     val_loader := l; training_epoch := training_epoch s;
     total_iter := total_iter s; epochs := epochs s |}.

Definition set_training_epoch (n : Z) (s : ecgTrainer) : ecgTrainer :=
  {| config := config s; exp_name := exp_name s; log_dir := log_dir s;
     pth_dir := pth_dir s; model := model s; training := training s;
     optimizer := optimizer s; train_loader := train_loader s;
     val_loader := val_loader s; training_epoch := n;
     total_iter := total_iter s; epochs := epochs s |}.

Definition set_total_iter (n : Z) (s : ecgTrainer) : ecgTrainer :=
  {| config := config s; exp_name := exp_name s; log_dir := log_dir s;
     pth_dir := pth_dir s; model := model s; training := training s;
     optimizer := optimizer s; train_loader := train_loader s;
     val_loader := val_loader s; training_epoch := training_epoch s;
     total_iter := n; epochs := epochs s |}.

Definition next_iter (l : Loader) : Loader :=
  {| ld_len := ld_len l; ld_feed := ld_feed l; ld_iters := S (ld_iters l) |}.

(** ** The monad of the methods: the object and the world are threaded, and
    an exception ends the computation with the state reached so far. *)

Definition St : Type := ecgTrainer * World.
Definition M (A : Type) : Type := St -> result A * St.

Definition ret {A} (a : A) : M A := fun st => (Ok a, st).
Definition raise {A} (e : exn) : M A := fun st => (Raise e, st).
Definition bind {A B} (m : M A) (k : A -> M B) : M B :=
  fun st =>
    match m st with
    | (Ok a, st') => k a st'
    | (Raise e, st') => (Raise e, st')
    end.

Definition get_self : M ecgTrainer := fun st => (Ok (fst st), st).
Definition modify_self (f : ecgTrainer -> ecgTrainer) : M unit :=
  fun st => (Ok tt, (f (fst st), snd st)).
Definition emit (e : event) : M unit :=
  fun st => (Ok tt, (fst st, {| files := files (snd st);
                                trace := trace (snd st) ++ [e] |})).
Definition write_file (path : string) (ck : Checkpoint) : M unit :=
  fun st => (Ok tt, (fst st, {| files := <[path := ck]> (files (snd st));
                                trace := trace (snd st) |})).


Notation "'let*' x ':=' c 'in' k" := (bind c (fun x => k))
  (at level 10, x pattern, c at level 100, k at level 200).

Definition print (l : line) : M unit := emit (Print l).
Definition add_scalar (tag : string) (v : scalar) (step : Z) : M unit :=
  emit (AddScalar tag v step).

(** ** Metric reduction *)

(** [x / n] for a float and an integer. *)
Definition truediv_float (x : float) (n : Z) : M float :=
  if decide (n = 0) then raise ZeroDivisionError
  else ret (fdiv x (float_of_int n)).

(** [a / b] for two integers: the quotient, as an exact rational (the float
    Python returns is its rounding, exact at 0 and 1). *)
Definition truediv_int (a b : Z) : M Q :=
  if decide (b = 0) then raise ZeroDivisionError
  else ret (inject_Z a / inject_Z b)%Q.

(** [pd_class == gt_class], element by element.  Both arrays hold one entry
    per example of the pass (the criterion rejects a batch whose scores and
    labels differ in number), so they are compared position by position. *)
Fixpoint array_eq (pd gt : list Z) : list bool :=
  match pd, gt with
  | p :: pd', g :: gt' => (if decide (p = g) then true else false) :: array_eq pd' gt'
  | _, _ => []
  end.

(** The builtin [sum] over an array of booleans. *)
Definition py_sum (bs : list bool) : Z :=
  fold_left (fun acc (b : bool) => acc + Z.b2z b) bs 0.

(** [sum(pd_class == gt_class) / pd_class.shape[0]]. *)
Definition class_accuracy (pd_class gt_class : list Z) : M Q :=
  truediv_int (py_sum (array_eq pd_class gt_class)) (Z.of_nat (length pd_class)).

(** ** Iterating over a loader *)

Fixpoint for_enumerate {A} (body : nat -> Batch -> A -> M A)
    (i : nat) (bs : list Batch) (a : A) : M A :=
  match bs with
  | [] => ret a
  | b :: bs' => let* a' := body i b a in for_enumerate body (S i) bs' a'
  end.

(** The loop over one iteration of a loader.  [body fault i batch] is the
    loop body on the batch of index [i]; [fault] is the exception that a call
    made on this batch raises, if one does. *)
Definition for_loader {A} (feed : Feed)
    (body : option exn -> nat -> Batch -> A -> M A) (a : A) : M A :=
  let* a' := for_enumerate (body None) 0 (fd_batches feed) a in
  match fd_end feed with
  | Exhausted => ret a'
  | IteratorRaises e => raise e
  | BatchRaises b e => body (Some e) (length (fd_batches feed)) b a'
  end.

Definition iter_train_loader : M Feed :=
  let* self := get_self in
  let l := train_loader self in
  let* _ := modify_self (set_train_loader (next_iter l)) in
  ret (ld_feed l (ld_iters l)).

Definition iter_val_loader : M Feed :=
  let* self := get_self in
  let l := val_loader self in
  let* _ := modify_self (set_val_loader (next_iter l)) in
  ret (ld_feed l (ld_iters l)).

(** The accumulators of one pass: [total_loss], [gt_class], [pd_class]. *)
Definition Acc : Type := float * list Z * list Z.

(** ** [train_epoch] *)

Definition train_batch (fault : option exn) (i : nat) (batch : Batch)
    (acc : Acc) : M Acc :=
  let '(total_loss, gt_class, pd_class) := acc in
  let* self := get_self in
  match fault with
  | Some e =>
      (* a call of lines 91-105 raises: the step counter and the log are not
         reached, the parameters are as the framework leaves them *)
      let* _ := modify_self
        (set_params (interrupted (optimizer self) (model self) batch)) in
      raise e
  | None =>
  let predictions := forward (model self) (training self) batch in
  let loss := criterion predictions batch in
  let classes := topk1 predictions in
  let gt_class := gt_class ++ batch_class batch in
  let pd_class := pd_class ++ classes in
  let total_loss := fadd total_loss loss in
  let* _ := modify_self
    (set_params (backward_step (optimizer self) (model self) batch predictions)) in
  let* _ := if decide ((Z.of_nat i + 1) mod 100 = 0)
            then print (LIter (Z.of_nat i + 1) (ld_len (train_loader self)) loss)
            else ret tt in
  let* self := get_self in
  let* _ := add_scalar "Train loss (iterations)" (SFloat loss) (total_iter self) in
  let* _ := modify_self (set_total_iter (total_iter self + 1)) in
  ret (total_loss, gt_class, pd_class)
  end.

Definition train_epoch : M unit :=
  let* _ := modify_self (set_training true) in
  let* feed := iter_train_loader in
  let* (total_loss, gt_class, pd_class) :=
    for_loader feed train_batch (float_of_int 0, [], []) in
  let* self := get_self in
  let* total_loss := truediv_float total_loss (Z.of_nat (ld_len (train_loader self))) in
  let* accuracy := class_accuracy pd_class gt_class in
  let* _ := print (LTrainLoss total_loss) in
  let* _ := print (LTrainAcc accuracy) in
  let* _ := add_scalar "Train loss (epochs)" (SFloat total_loss) (training_epoch self) in
  add_scalar "Train CLASS accuracy" (SRat accuracy) (training_epoch self).

(** ** [val]

    The iteration is wrapped in [tqdm], whose indicator goes to the standard
    error stream and is not recorded (see [World]). *)

Definition val_batch (fault : option exn) (i : nat) (batch : Batch)
    (acc : Acc) : M Acc :=
  let '(total_loss, gt_class, pd_class) := acc in
  let* self := get_self in
  match fault with
  | Some e =>
      (* a call of lines 138-143 raises; in eval mode and without gradients
         nothing of the object has changed *)
      raise e
  | None =>
  let predictions := forward (model self) (training self) batch in
  let loss := criterion predictions batch in
  let classes := topk1 predictions in
  let gt_class := gt_class ++ batch_class batch in
  let pd_class := pd_class ++ classes in
  let total_loss := fadd total_loss loss in
  ret (total_loss, gt_class, pd_class)
  end.

Definition val : M float :=
  let* _ := modify_self (set_training false) in
  let* feed := iter_val_loader in
  let* (total_loss, gt_class, pd_class) :=
    for_loader feed val_batch (float_of_int 0, [], []) in
  let* self := get_self in
  let* total_loss := truediv_float total_loss (Z.of_nat (ld_len (val_loader self))) in
  let* accuracy := class_accuracy pd_class gt_class in
  let* _ := print (LValLoss total_loss) in
  let* _ := print (LValAcc accuracy) in
  let* _ := add_scalar "Validation loss" (SFloat total_loss) (training_epoch self) in
  let* _ := add_scalar "Validation CLASS accuracy" (SRat accuracy) (training_epoch self) in
  ret total_loss.

(** ** Checkpoint I/O *)

(** Modelled from the spec: [utils.save_checkpoint(state, filename)], whose
    module is not part of the sources.  The snapshot (model parameters,
    optimizer state, epoch index, global step count) is written to persistent
    storage under [filename], replacing what was there. *)
Definition save_checkpoint (state : Checkpoint) (filename : string) : M unit :=
  let* _ := write_file filename state in
  emit (Save filename state).

(** Modelled from the spec: [utils.load_checkpoint(path, model, optimizer)],
    whose module is not part of the sources.  Loading restores the model and
    optimizer state in place and returns the stored epoch index and global
    step count; it fails when the path does not name a checkpoint. *)
Definition load_checkpoint (path : json) (fs : gmap string Checkpoint)
    : result (Model * Optim * (Z * Z)) :=
  let? p := py_str path in
  match fs !! p with
  | Some ck => Ok (ck_state_dict ck, ck_optimizer ck, (ck_epoch ck, ck_total_iter ck))
  | None => Raise FileNotFoundError
  end.

(** The file of one epoch: [osp.join(self.pth_dir, "{:0>8}.pth".format(epoch))]. *)
Definition checkpoint_path (dir : string) (epoch : Z) : string :=
  Py.join dir [Py.format_0_8 epoch +:+ ".pth"].

(** ** [loop] *)

Fixpoint for_range (body : Z -> M unit) (l : list Z) : M unit :=
  match l with
  | [] => ret tt
  | epoch :: l' => let* _ := body epoch in for_range body l'
  end.

Definition loop_body (epoch : Z) : M unit :=
  let* self := get_self in
  let* _ := print (LEpoch (training_epoch self + 1)) in
  let* _ := train_epoch in
  let* self := get_self in
  let* _ := save_checkpoint
    {| ck_state_dict := model self;
       ck_optimizer := optimizer self;
       ck_epoch := epoch;
       ck_total_iter := total_iter self |}
    (checkpoint_path (pth_dir self) epoch) in
  let* val_loss := val in
  let* self := get_self in
  modify_self (set_training_epoch (training_epoch self + 1)).

Definition loop : M unit :=
  let* self := get_self in
  let start := training_epoch self in
  let* stop := (fun st => (py_index (epochs self), st)) in
  for_range loop_body (Py.range start stop).

(** ** [__init__]

    The network, the optimizer and the dataset come from modules outside the
    sources; the constructor only passes configuration values to them.  Each
    of its external calls is a step that can raise, as the environment
    decides ([setup_fault]); the directories and the writer hold no state
    the methods read, so only their possible failure is kept. *)

(** An external call of the constructor: it raises or goes through. *)
Definition external (s : setup_step) : result unit :=
  match setup_fault s with
  | Some e => Raise e
  | None => Ok tt
  end.

Variable ecgNet : gmap string json -> Model.
Variable Adam : Model -> json -> Optim.
Variable get_dataloader : json -> json -> json -> json -> Loader.

Definition __init__ (params : gmap string json) (w : World) : result ecgTrainer :=
  let config := params in
  let? name := getitem params "exp_name" in
  let? dir := getitem params "exp_dir" in
  let? dir := py_str dir in
  let? name := py_str name in
  let log_dir := Py.join dir [name; "logs"] in
  let pth_dir := Py.join dir [name; "checkpoints"] in
  let? _ := external MakeLogDir in
  let? _ := external MakePthDir in
  let? _ := external Writer in
  let? _ := external Net in
  let model := ecgNet config in
  let? lr := getitem config "lr" in
  let? _ := external Optimizer in
  let optimizer := Adam model lr in
  let? device := getitem config "device" in
  let? _ := external Criterion in
  let? train_json := getitem config "train_json" in
  let? mapping_json := getitem config "mapping_json" in
  let? _ := external TrainDataset in
  let? batch_size := getitem config "batch_size" in
  let? num_workers := getitem config "num_workers" in
  let? _ := external TrainLoader in
  let train_loader := get_dataloader train_json mapping_json batch_size num_workers in
  let? val_json := getitem config "val_json" in
  let? _ := external ValDataset in
  let? _ := external ValLoader in
  let val_loader := get_dataloader val_json mapping_json batch_size num_workers in
  let pretrained_path := default (JBool false) (config !! "model_path") in
  let? (model, optimizer, (training_epoch, total_iter)) :=
    (if truthy pretrained_path
     then load_checkpoint pretrained_path (files w)
     else Ok (model, optimizer, (0, 0))) in
  let? epochs := getitem config "epochs" in
  Ok {| config := config; exp_name := name; log_dir := log_dir;
        pth_dir := pth_dir; model := model; training := true;
        optimizer := optimizer; train_loader := train_loader;
        val_loader := val_loader; training_epoch := training_epoch;
        total_iter := total_iter; epochs := epochs |}.

(** ** What a run leaves behind *)

(** The paths of the checkpoints saved, in the order of the calls. *)
Definition saved (tr : list event) : list string :=
  omap (fun e => match e with Save path _ => Some path | _ => None end) tr.

(** The parameters after training on the batches [bs], one optimizer step
    per batch. *)
Definition params_after (mode : bool) (om : Optim * Model) (bs : list Batch)
    : Optim * Model :=
  fold_left
    (fun om b => backward_step (fst om) (snd om) b (forward (snd om) mode b))
    bs om.

(** The loss and the predicted classes of each batch of a training pass: the
    batch is scored with the parameters left by the batches before it. *)
Fixpoint batch_scores (mode : bool) (om : Optim * Model) (bs : list Batch)
    : list Scores :=
  match bs with
  | [] => []
  | b :: bs' =>
      let p := forward (snd om) mode b in
      p :: batch_scores mode (backward_step (fst om) (snd om) b p) bs'
  end.

Definition batch_losses (mode : bool) (om : Optim * Model) (bs : list Batch)
    : list float :=
  zip_with criterion (batch_scores mode om bs) bs.

(** The progress line of the batch with index [i], printed on every 100th
    batch counting from 1. *)
Definition progress (len : nat) (i : nat) (loss : float) : list event :=
  if decide ((Z.of_nat i + 1) mod 100 = 0)
  then [Print (LIter (Z.of_nat i + 1) len loss)]
  else [].

(** What the batches of a training pass print and log: the batch at
    position [j] has index [i + j] and global step [t + j]. *)
Definition batch_events (len : nat) (i : nat) (t : Z) (losses : list float)
    : list event :=
  concat (imap (fun j loss =>
    progress len (i + j) loss
    ++ [AddScalar "Train loss (iterations)" (SFloat loss) (t + Z.of_nat j)])
    losses).

(** The per-batch losses logged, with the step each was logged against. *)
Definition iteration_scalars (tr : list event) : list (float * Z) :=
  omap (fun e =>
    match e with
    | AddScalar tag (SFloat x) step =>
        if decide (tag = "Train loss (iterations)") then Some (x, step) else None
    | _ => None
    end) tr.

(** The progress lines printed: batch number, loader length, loss. *)
Definition progress_lines (tr : list event) : list (Z * nat * float) :=
  omap (fun e =>
    match e with
    | Print (LIter i n loss) => Some (i, n, loss)
    | _ => None
    end) tr.

(** The epoch banners printed: the numbers of the epochs started. *)
Definition banners (tr : list event) : list Z :=
  omap (fun e => match e with Print (LEpoch n) => Some n | _ => None end) tr.

(** The number of positions at which prediction and ground truth agree. *)
Definition matches (pd gt : list Z) : nat :=
  length (filter (fun pg : Z * Z => fst pg = snd pg) (zip pd gt)).

(** The feed of the pass that starts in state [st]. *)
Definition train_feed (st : St) : Feed :=
  ld_feed (train_loader (fst st)) (ld_iters (train_loader (fst st))).
Definition val_feed (st : St) : Feed :=
  ld_feed (val_loader (fst st)) (ld_iters (val_loader (fst st))).

(** ** The object after a pass *)

(** After a training pass: train mode, the train loader one iteration
    further, one optimizer step per batch processed, the step counter
    advanced by the number of those batches; a batch whose processing raises
    leaves the parameters as the framework left them. *)
Definition after_train (self : ecgTrainer) : ecgTrainer :=
  let l := train_loader self in
  let feed := ld_feed l (ld_iters l) in
  let bs := fd_batches feed in
  let om := params_after true (optimizer self, model self) bs in
  set_total_iter (total_iter self + Z.of_nat (length bs))
    (set_params
       (match fd_end feed with
        | BatchRaises b _ => interrupted (fst om) (snd om) b
        | _ => om
        end)
       (set_train_loader (next_iter l) (set_training true self))).

(** After a validation pass: eval mode, the validation loader one iteration
    further. *)
Definition after_val (self : ecgTrainer) : ecgTrainer :=
  set_val_loader (next_iter (val_loader self)) (set_training false self).

(** After a whole iteration of the epoch loop. *)
Definition after_epoch (self : ecgTrainer) : ecgTrainer :=
  set_training_epoch (training_epoch self + 1) (after_val (after_train self)).

(** The snapshot that the iteration for [epoch] saves, starting from [self]. *)
Definition epoch_checkpoint (self : ecgTrainer) (epoch : Z) : Checkpoint :=
  {| ck_state_dict := model (after_train self);
     ck_optimizer := optimizer (after_train self);
     ck_epoch := epoch;
     ck_total_iter := total_iter (after_train self) |}.

(** How a pass ends: with the exception that stops its loop over the loader,
    if any; else with a division by zero when the loader has length 0 or the
    pass has collected no prediction; else normally. *)
Definition pass_outcome (fault : option exn) (len examples : nat) : result unit :=
  match fault with
  | Some e => Raise e
  | None =>
      if decide (len = 0%nat) then Raise ZeroDivisionError
      else if decide (examples = 0%nat) then Raise ZeroDivisionError
      else Ok tt
  end.

(** The predicted classes and the labels that a training pass and a
    validation pass starting in [st] collect. *)
Definition train_pd (st : St) : list Z :=
  concat (map topk1
    (batch_scores true (optimizer (fst st), model (fst st))
       (fd_batches (train_feed st)))).
Definition train_gt (st : St) : list Z :=
  concat (map batch_class (fd_batches (train_feed st))).
Definition val_pd (st : St) : list Z :=
  concat (map (fun b => topk1 (forward (model (fst st)) false b))
    (fd_batches (val_feed st))).
Definition val_gt (st : St) : list Z :=
  concat (map batch_class (fd_batches (val_feed st))).

(** The number of batches that the [n] iterations of a loader after those
    already started produce. *)
Definition batches_ahead (l : Loader) (n : nat) : nat :=
  sum_list (map (fun i => length (fd_batches (ld_feed l (ld_iters l + i)))) (seq 0 n)).

(** The keys that [__init__] reads with [params[...]], in the order of the
    first access. *)
Definition required_keys : list string :=
  ["exp_name"; "exp_dir"; "lr"; "device"; "train_json"; "mapping_json";
   "batch_size"; "num_workers"; "val_json"; "epochs"].

End Trainer.

Arguments Loader {T}.
Arguments Feed {T}.
Arguments ending {T}.
Arguments json {T}.
Arguments ecgTrainer {T}.
Arguments World {T}.
Arguments Checkpoint {T}.
Arguments event {T}.

(** ** A small concrete framework, to run the trainer on

    Losses are rationals; a batch is a list of (predicted class, label)
    pairs, so the network is the first projection; the model and optimizer
    states count the optimizer steps taken. *)

Module Demo.

#[local] Instance torch : Torch := {|
  float := Q;
  float_of_int := inject_Z;
  fadd := Qplus;
  fdiv := Qdiv;
  float_bool := fun q => negb (Qeq_bool q 0);
  Model := nat;
  Optim := nat;
  Batch := list (Z * Z);
  Scores := list Z;
  forward := fun _ _ b => map fst b;
  criterion := fun _ b => 1%Q;
  topk1 := fun p => p;
  batch_class := fun b => map snd b;
  backward_step := fun o m _ _ => (S o, S m);
  interrupted := fun o m _ => (o, m);
  setup_fault := fun _ => None
|}.

Definition ecgNet (cfg : gmap string json) : Model := O.
Definition Adam (m : Model) (lr : json) : Optim := O.

(** Every iteration yields the same two batches, three examples in all, two
    of them classified correctly. *)
Definition two_batches : Feed :=
  {| fd_batches := [[(1, 1); (0, 1)]; [(2, 2)]]; fd_end := Exhausted |}.

Definition steady : Loader :=
  {| ld_len := 2; ld_feed := fun _ => two_batches; ld_iters := 0 |}.

(** A loader with no data. *)
Definition no_batches : Feed := {| fd_batches := []; fd_end := Exhausted |}.
Definition empty : Loader :=
  {| ld_len := 0; ld_feed := fun _ => no_batches; ld_iters := 0 |}.

(** A loader whose second iteration breaks after one batch. *)
Definition broken : Feed :=
  {| fd_batches := [[(1, 1)]]; fd_end := IteratorRaises (LoaderError "read") |}.
Definition flaky : Loader :=
  {| ld_len := 2;
     ld_feed := fun k => match k with 1%nat => broken | _ => two_batches end;
     ld_iters := 0 |}.

Definition get_dataloader (path mapping batch_size num_workers : json) : Loader :=
  match path with
  | JStr "empty.json" => empty
  | JStr "flaky.json" => flaky
  | _ => steady
  end.

Definition base_config (train : string) (epochs : Z) : gmap string json :=
  <["exp_name" := JStr "run"]> (<["exp_dir" := JStr "exp"]> (
  <["device" := JStr "cpu"]> (<["lr" := JInt 1]> (
  <["epochs" := JInt epochs]> (<["batch_size" := JInt 2]> (
  <["num_workers" := JInt 0]> (<["train_json" := JStr train]> (
  <["val_json" := JStr "val.json"]> (<["mapping_json" := JStr "map.json"]> ∅))))))))).

Definition world0 : World := {| files := ∅; trace := [] |}.

Definition new (cfg : gmap string json) (w : World) : result ecgTrainer :=
  __init__ ecgNet Adam get_dataloader cfg w.

(** The trainer that [new] builds from [base_config], and the same trainer
    at a later resume point. *)
Definition trainer (train : string) (epoch iter epochs : Z) : ecgTrainer :=
  {| config := base_config train epochs;
     exp_name := "run";
     log_dir := "exp/run/logs";
     pth_dir := "exp/run/checkpoints";
     model := O; training := true; optimizer := O;
     train_loader := get_dataloader (JStr train) (JStr "map.json") (JInt 2) (JInt 0);
     val_loader := steady;
     training_epoch := epoch; total_iter := iter;
     epochs := JInt epochs |}.

(** Construct a trainer and run [loop]; the exception of a failed
    construction is returned with the world untouched. *)
Definition run (cfg : gmap string json) (w : World) : result unit * World :=
  match new cfg w with
  | Ok self => let (r, st) := loop (self, w) in (r, snd st)
  | Raise e => (Raise e, w)
  end.

End Demo.

(** * Properties *)

(** ** The Python primitives *)

Example range_2_5 : Py.range 2 5 = [2; 3; 4].
Proof. reflexivity. Qed.

Example range_empty : Py.range 5 2 = [].
Proof. reflexivity. Qed.

Example format_7 : Py.format_0_8 7 = "00000007".
Proof. reflexivity. Qed.

Example format_neg : Py.format_0_8 (-5) = "000000-5".
Proof. reflexivity. Qed.

Example format_wide : Py.format_0_8 123456789 = "123456789".
Proof. reflexivity. Qed.

Example join_3 : Py.join "exp" ["run1"; "checkpoints"] = "exp/run1/checkpoints".
Proof. reflexivity. Qed.

Example join_abs : Py.join "exp/" ["/abs"; "logs"] = "/abs/logs".
Proof. reflexivity. Qed.

Module PyFacts.
Import Py.

Lemma range_nil a b : b <= a -> range a b = [].
Proof.
  intros H. unfold range. replace (Z.to_nat (b - a)) with O by lia. reflexivity.
Qed.

Lemma range_cons a b : a < b -> range a b = a :: range (a + 1) b.
Proof.
  intros H. unfold range.
  replace (Z.to_nat (b - a)) with (S (Z.to_nat (b - (a + 1)))) by lia.
  cbn [seq map]. f_equal; [lia|].
  rewrite <- seq_shift, map_map. apply map_ext. intros i. lia.
Qed.

Lemma range_snoc a b : a <= b -> range a (b + 1) = range a b ++ [b].
Proof.
  intros H. unfold range.
  replace (Z.to_nat (b + 1 - a)) with (Z.to_nat (b - a) + 1)%nat by lia.
  rewrite seq_app, map_app. cbn. do 2 f_equal. lia.
Qed.

Lemma range_length a b : length (range a b) = Z.to_nat (b - a).
Proof. unfold range. rewrite length_map. apply length_seq. Qed.

Lemma elem_of_range a b e : e ∈ range a b <-> a <= e < b.
Proof.
  unfold range. rewrite list_elem_of_fmap. split.
  - intros (i & -> & Hi). apply elem_of_seq in Hi. lia.
  - intros H. exists (Z.to_nat (e - a)). split; [lia|].
    apply elem_of_seq. lia.
Qed.

Lemma range_NoDup a b : NoDup (range a b).
Proof.
  unfold range. apply NoDup_fmap_2; [|apply NoDup_seq].
  intros i j. lia.
Qed.

Lemma range_split a k b : a <= k <= b -> range a b = range a k ++ range k b.
Proof.
  intros H. unfold range.
  replace (Z.to_nat (b - a)) with (Z.to_nat (k - a) + Z.to_nat (b - k))%nat by lia.
  rewrite seq_app, map_app. f_equal.
  replace (seq (0 + Z.to_nat (k - a)) (Z.to_nat (b - k)))
    with (Nat.add (Z.to_nat (k - a)) <$> seq 0 (Z.to_nat (b - k)))
    by (rewrite fmap_add_seq; f_equal; lia).
  rewrite <- list_fmap_compose. apply map_ext. intros i. cbn. lia.
Qed.

(** Strings: cancellation on the right of an append. *)

Lemma length_append (s t : string) :
  String.length (s +:+ t) = (String.length s + String.length t)%nat.
Proof. induction s as [|c s IH]; simpl; [reflexivity | now rewrite IH]. Qed.

Lemma append_inv_tail (s1 s2 t : string) : s1 +:+ t = s2 +:+ t -> s1 = s2.
Proof.
  revert s2. induction s1 as [|c s1 IH]; intros [|d s2] H; simpl in H.
  - reflexivity.
  - apply (f_equal String.length) in H. simpl in H.
    rewrite !length_append in H. simpl in H. lia.
  - apply (f_equal String.length) in H. simpl in H.
    rewrite !length_append in H. simpl in H. lia.
  - injection H as -> H. f_equal. now apply IH.
Qed.

Lemma length_zeros n : String.length (zeros n) = n.
Proof. induction n; cbn; congruence. Qed.

(** [str(n)]: never empty, and a leading ["0"] only for zero itself. *)

Definition canonical (s : string) : Prop :=
  s <> EmptyString /\ forall s', s = String "0"%char s' -> s' = EmptyString.

Lemma pretty_N_go_head (x : N) (s : string) :
  (0 < x)%N ->
  exists c s', pretty_N_go x s = String c s' /\ c <> "0"%char /\ c <> "/"%char.
Proof.
  revert s. induction (N.lt_wf_0 x) as [x _ IH]; intros s Hx.
  rewrite pretty_N_go_step by done.
  destruct (decide (x `div` 10 = 0)%N) as [Hq|Hq].
  - rewrite Hq, pretty_N_go_0. eexists _, _. split; [reflexivity|].
    assert (x < 10)%N by (apply N.div_small_iff in Hq; lia).
    rewrite N.mod_small by done.
    assert (x = 1 \/ x = 2 \/ x = 3 \/ x = 4 \/ x = 5 \/ x = 6
            \/ x = 7 \/ x = 8 \/ x = 9)%N as Hc by lia.
    destruct Hc as [->|[->|[->|[->|[->|[->|[->|[->| ->]]]]]]]]; done.
  - apply IH; [apply N.div_lt; lia | by apply N.neq_0_lt_0].
Qed.

Lemma pretty_canonical (n : Z) : canonical (pretty n).
Proof.
  destruct n as [|p|p]; unfold pretty, pretty_Z.
  - split; [done|]. intros s' [= <-]. reflexivity.
  - unfold pretty, pretty_positive, pretty, pretty_N.
    destruct (decide (N.pos p = 0%N)) as [?|_]; [done|].
    destruct (pretty_N_go_head (N.pos p) EmptyString) as (c & s0 & -> & Hc & _); [lia|].
    split; [done|]. intros s' [= -> _]. done.
  - split; [done|]. intros s' [=].
Qed.

Lemma zeros_append_inj n1 n2 s1 s2 :
  canonical s1 -> canonical s2 ->
  zeros n1 +:+ s1 = zeros n2 +:+ s2 -> s1 = s2.
Proof.
  intros [Hne1 Hz1] [Hne2 Hz2]. revert n2.
  induction n1 as [|n1 IH]; intros [|n2] H; cbn in H.
  - done.
  - apply Hz1 in H. destruct n2, s2; cbn in H; done.
  - symmetry in H. apply Hz2 in H. destruct n1, s1; cbn in H; done.
  - injection H as H. eauto.
Qed.

Lemma format_0_8_inj a b : format_0_8 a = format_0_8 b -> a = b.
Proof.
  unfold format_0_8, rjust0. intros H.
  apply zeros_append_inj in H; auto using pretty_canonical.
  by apply (inj pretty).
Qed.

Lemma pretty_head (n : Z) c s : pretty n = String c s -> c <> "/"%char.
Proof.
  destruct n as [|p|p]; unfold pretty, pretty_Z.
  - intros [= <- _]. done.
  - unfold pretty, pretty_positive, pretty, pretty_N.
    destruct (decide (N.pos p = 0%N)) as [?|_]; [done|].
    destruct (pretty_N_go_head (N.pos p) EmptyString) as (c' & s0 & -> & _ & Hc); [lia|].
    by intros [= <- _].
  - intros [= <- _]. done.
Qed.

Lemma format_0_8_head n c s : format_0_8 n = String c s -> c <> "/"%char.
Proof.
  unfold format_0_8, rjust0.
  destruct (8 - String.length (pretty n))%nat; simpl.
  - apply pretty_head.
  - intros [= <- _]. done.
Qed.

(** The width of the formatted epoch index. *)

Lemma format_0_8_length n :
  String.length (format_0_8 n) = Nat.max 8 (String.length (pretty n)).
Proof.
  unfold format_0_8, rjust0. rewrite length_append, length_zeros. lia.
Qed.

Lemma pretty_N_go_length (k : nat) (x : N) (s : string) :
  (x < 10 ^ N.of_nat k)%N ->
  (String.length (pretty_N_go x s) <= String.length s + k)%nat.
Proof.
  revert x s. induction k as [|k IH]; intros x s Hx.
  - assert (x = 0%N) as -> by (change (10 ^ N.of_nat 0)%N with 1%N in Hx; lia).
    rewrite pretty_N_go_0. lia.
  - destruct (decide (x = 0%N)) as [->|Hnz].
    + rewrite pretty_N_go_0. lia.
    + rewrite pretty_N_go_step by lia.
      etrans; [apply IH|simpl; lia].
      apply N.Div0.div_lt_upper_bound.
      rewrite <- N.pow_succ_r'. by rewrite <- Nat2N.inj_succ.
Qed.

Lemma pretty_length_8 n : 0 <= n < 10 ^ 8 -> (String.length (pretty n) <= 8)%nat.
Proof.
  intros Hn. destruct n as [|p|p]; [simpl; lia| |lia].
  unfold pretty, pretty_Z, pretty, pretty_positive, pretty, pretty_N.
  destruct (decide (N.pos p = 0%N)) as [?|_]; [done|].
  apply (pretty_N_go_length 8 (N.pos p) EmptyString).
  change (10 ^ N.of_nat 8)%N with 100000000%N.
  change (10 ^ 8) with 100000000 in Hn. lia.
Qed.

Lemma format_0_8_width n : 0 <= n < 10 ^ 8 -> String.length (format_0_8 n) = 8%nat.
Proof.
  intros Hn. rewrite format_0_8_length. pose proof (pretty_length_8 n Hn). lia.
Qed.

(** Joining a directory and a formatted epoch index. *)

Lemma starts_with_sep_format n t : starts_with_sep (format_0_8 n +:+ t) = false.
Proof.
  destruct (format_0_8 n) as [|c s] eqn:E.
  - apply (f_equal String.length) in E. rewrite format_0_8_length in E.
    simpl in E. lia.
  - simpl. apply format_0_8_head in E. by destruct (decide (c = "/"%char)).
Qed.

Lemma join_format_inj dir a b t :
  join dir [format_0_8 a +:+ t] = join dir [format_0_8 b +:+ t] -> a = b.
Proof.
  unfold join. cbn [fold_left]. unfold join_step.
  rewrite !starts_with_sep_format.
  destruct (_ || _); intros H.
  - apply (inj (String.append dir)) in H.
    by apply format_0_8_inj, (append_inv_tail _ _ t).
  - apply (inj (String.append dir)) in H. injection H as H.
    by apply format_0_8_inj, (append_inv_tail _ _ t).
Qed.

End PyFacts.

(** ** The passes *)

Section TrainerFacts.

Context `{T : Torch}.
Implicit Types (st : St) (self : ecgTrainer) (w : World) (bs : list Batch).

Lemma bind_ok {A B} (m : M A) (k : A -> M B) st a st' :
  m st = (Ok a, st') -> bind m k st = k a st'.
Proof. unfold bind. by intros ->. Qed.

Lemma bind_raise {A B} (m : M A) (k : A -> M B) st e st' :
  m st = (Raise e, st') -> bind m k st = (Raise e, st').
Proof. unfold bind. by intros ->. Qed.

Lemma saved_app (tr1 tr2 : list event) : saved (tr1 ++ tr2) = saved tr1 ++ saved tr2.
Proof. apply omap_app. Qed.

Lemma saved_progress len i loss : saved (progress len i loss) = [].
Proof. unfold progress. by case_decide. Qed.

Lemma saved_batch_events len i t losses : saved (batch_events len i t losses) = [].
Proof.
  unfold batch_events. revert i t.
  induction losses as [|l ls IH]; intros i t; [done|].
  rewrite imap_cons. cbn [concat]. rewrite !saved_app, saved_progress. cbn.
  rewrite <- (IH (S i) (t + 1)). f_equal. f_equal. apply imap_ext.
  intros j x _. cbn. do 3 f_equal; lia.
Qed.

#[local] Arguments saved : simpl never.
#[local] Arguments checkpoint_path : simpl never.

(** One batch of the training loop, in closed form. *)
Lemma train_batch_run i b total_loss gt_class pd_class self w :
  let p := forward (model self) (training self) b in
  let loss := criterion p b in
  train_batch None i b (total_loss, gt_class, pd_class) (self, w) =
  (Ok (fadd total_loss loss, gt_class ++ batch_class b, pd_class ++ topk1 p),
   (set_total_iter (total_iter self + 1)
      (set_params (backward_step (optimizer self) (model self) b p) self),
    {| files := files w;
       trace := trace w ++ progress (ld_len (train_loader self)) i loss
                ++ [AddScalar "Train loss (iterations)" (SFloat loss) (total_iter self)] |})).
Proof.
  intros p loss. unfold train_batch, progress, bind, get_self, modify_self, print,
    add_scalar, emit, ret. cbn.
  case_decide; cbn; [|done].
  by rewrite <- app_assoc.
Qed.

(** The whole training loop over the batches of a feed. *)
Lemma for_enumerate_train bs : forall i total_loss gt_class pd_class self w,
  let om := (optimizer self, model self) in
  let mode := training self in
  for_enumerate (train_batch None) i bs (total_loss, gt_class, pd_class) (self, w) =
  (Ok (fold_left fadd (batch_losses mode om bs) total_loss,
       gt_class ++ concat (map batch_class bs),
       pd_class ++ concat (map topk1 (batch_scores mode om bs))),
   (set_total_iter (total_iter self + Z.of_nat (length bs))
      (set_params (params_after mode om bs) self),
    {| files := files w;
       trace := trace w ++ batch_events (ld_len (train_loader self)) i
                             (total_iter self) (batch_losses mode om bs) |})).
Proof.
  induction bs as [|b bs IH]; intros i total_loss gt_class pd_class self w.
  - cbn. unfold ret, batch_events. cbn. rewrite !app_nil_r.
    destruct self, w; cbn. do 3 f_equal. unfold set_total_iter; cbn. f_equal. lia.
  - cbn [for_enumerate]. erewrite bind_ok; [|apply train_batch_run].
    rewrite IH. clear IH. destruct self, w; cbn.
    destruct (backward_step _ _ _ _) as [o' m']; cbn.
    rewrite <- !app_assoc, Nat.add_0_r, Z.add_0_r.
    f_equal. f_equal.
    + unfold set_total_iter, set_params, params_after; cbn. f_equal. lia.
    + do 4 f_equal. unfold batch_events, batch_losses. f_equal.
      apply imap_ext. intros j x _. cbn. do 3 f_equal; lia.
Qed.

(** The validation loop leaves the object and the world as they are. *)
Lemma for_enumerate_val bs : forall i total_loss gt_class pd_class st,
  let m := model (fst st) in
  let mode := training (fst st) in
  for_enumerate (val_batch None) i bs (total_loss, gt_class, pd_class) st =
  (Ok (fold_left fadd (map (fun b => criterion (forward m mode b) b) bs) total_loss,
       gt_class ++ concat (map batch_class bs),
       pd_class ++ concat (map (fun b => topk1 (forward m mode b)) bs)),
   st).
Proof.
  induction bs as [|b bs IH]; intros i total_loss gt_class pd_class st.
  - cbn. unfold ret. by rewrite !app_nil_r.
  - cbn [for_enumerate]. unfold bind at 1. cbn.
    rewrite IH. cbn. by rewrite <- !app_assoc.
Qed.

(** What one call of [train_epoch] does, by cases on its outcome. *)
Lemma train_epoch_spec st :
  let feed := train_feed st in
  let bs := fd_batches feed in
  let om := (optimizer (fst st), model (fst st)) in
  exists r self' tail,
    train_epoch st =
      (r, (self', {| files := files (snd st); trace := trace (snd st) ++ tail |}))
    /\ saved tail = []
    /\ pth_dir self' = pth_dir (fst st)
    /\ epochs self' = epochs (fst st)
    /\ training_epoch self' = training_epoch (fst st)
    /\ val_loader self' = val_loader (fst st)
    /\ total_iter self' = total_iter (fst st) + Z.of_nat (length bs)
    /\ (forall e, fd_fault feed = Some e -> r = Raise e)
    /\ (fd_fault feed = None -> bs = [] -> r = Raise ZeroDivisionError)
    /\ (exists tail',
          tail = batch_events (ld_len (train_loader (fst st))) 0 (total_iter (fst st))
                   (batch_losses true om bs) ++ tail'
          /\ (tail' = [] \/
              exists x q,
                tail' = [Print (LTrainLoss x); Print (LTrainAcc q);
                         AddScalar "Train loss (epochs)" (SFloat x)
                           (training_epoch (fst st));
                         AddScalar "Train CLASS accuracy" (SRat q)
                           (training_epoch (fst st))])).
Proof.
  destruct st as [self w]. intros feed bs om.
  unfold train_feed in feed. cbn [fst snd] in feed, om.
  unfold train_epoch.
  unfold bind at 1. cbn [modify_self fst snd].
  unfold bind at 1. unfold iter_train_loader.
  unfold bind at 1. cbn [get_self modify_self fst snd].
  unfold bind at 1. cbn [modify_self ret fst snd].
  unfold bind at 1. unfold for_loader. unfold bind at 1.
  rewrite for_enumerate_train. cbn [fst snd set_train_loader set_training
    optimizer model training train_loader total_iter files trace ld_len next_iter].
  fold feed. fold bs. fold om.
  set (losses := batch_losses true om bs).
  set (ev := batch_events _ _ _ _).
  unfold fd_fault.
  destruct (fd_end feed) as [|e|b e] eqn:Hend.
  2:{ eexists _, _, ev. cbn. split; [reflexivity|].
      split; [apply saved_batch_events|].
      repeat split; try done.
      - by intros e' [= ->].
      - exists []. rewrite app_nil_r. by split; [|left]. }
  2:{ eexists _, _, ev. unfold train_batch, bind, get_self, modify_self, raise. cbn.
      split; [reflexivity|].
      split; [apply saved_batch_events|].
      repeat split; try done.
      - by intros e' [= ->].
      - exists []. rewrite app_nil_r. by split; [|left]. }
  cbn [ret]. unfold bind at 1. cbn [get_self fst snd].
  unfold bind at 1. unfold truediv_float.
  cbn [set_total_iter set_params train_loader ld_len next_iter].
  case_decide as Hlen.
  { eexists _, _, ev. cbn. split; [reflexivity|].
    split; [apply saved_batch_events|].
    repeat split; try done. exists []. rewrite app_nil_r. by split; [|left]. }
  cbn [ret]. unfold bind at 1. unfold class_accuracy, truediv_int.
  case_decide as Hpd.
  { eexists _, _, ev. cbn. split; [reflexivity|].
    split; [apply saved_batch_events|].
    repeat split; try done. exists []. rewrite app_nil_r. by split; [|left]. }
  cbn [ret]. unfold bind, print, add_scalar, emit. cbn.
  eexists _, _, (ev ++ [_; _; _; _]). split.
  { rewrite <- !app_assoc. reflexivity. }
  split; [rewrite saved_app; unfold ev; by rewrite saved_batch_events|].
  repeat split; try done.
  - intros _ Hbs. exfalso. apply Hpd. subst bs. rewrite Hbs. reflexivity.
  - eexists. split; [reflexivity|]. right. by eexists _, _.
Qed.

(** What one call of [val] does, by cases on its outcome. *)
Lemma val_spec st :
  let feed := val_feed st in
  let bs := fd_batches feed in
  let m := model (fst st) in
  let losses := map (fun b => criterion (forward m false b) b) bs in
  let gt := concat (map batch_class bs) in
  let pd := concat (map (fun b => topk1 (forward m false b)) bs) in
  let len := Z.of_nat (ld_len (val_loader (fst st))) in
  exists r self' tail,
    val st =
      (r, (self', {| files := files (snd st); trace := trace (snd st) ++ tail |}))
    /\ saved tail = []
    /\ pth_dir self' = pth_dir (fst st)
    /\ epochs self' = epochs (fst st)
    /\ training_epoch self' = training_epoch (fst st)
    /\ total_iter self' = total_iter (fst st)
    /\ model self' = model (fst st)
    /\ optimizer self' = optimizer (fst st)
    /\ train_loader self' = train_loader (fst st)
    /\ (forall e, fd_fault feed = Some e -> r = Raise e)
    /\ (fd_fault feed = None -> bs = [] -> r = Raise ZeroDivisionError)
    /\ (forall x, r = Ok x ->
          let accuracy :=
            (inject_Z (py_sum (array_eq pd gt)) / inject_Z (Z.of_nat (length pd)))%Q in
          x = fdiv (fold_left fadd losses (float_of_int 0)) (float_of_int len)
          /\ tail = [Print (LValLoss x); Print (LValAcc accuracy);
                     AddScalar "Validation loss" (SFloat x) (training_epoch (fst st));
                     AddScalar "Validation CLASS accuracy" (SRat accuracy)
                       (training_epoch (fst st))]).
Proof.
  destruct st as [self w]. intros feed bs m losses gt pd len.
  unfold val_feed in feed. cbn [fst snd] in feed, m, len.
  unfold val.
  unfold bind at 1. cbn [modify_self fst snd].
  unfold bind at 1. unfold iter_val_loader.
  unfold bind at 1. cbn [get_self modify_self fst snd].
  unfold bind at 1. cbn [modify_self ret fst snd].
  unfold bind at 1. unfold for_loader. unfold bind at 1.
  rewrite for_enumerate_val. cbn [fst snd set_val_loader set_training
    optimizer model training val_loader total_iter files trace ld_len next_iter
    app].
  fold feed. fold bs. fold m. fold losses. fold gt. fold pd.
  unfold fd_fault.
  destruct (fd_end feed) as [|e|b e] eqn:Hend.
  2:{ eexists _, _, []. cbn. rewrite app_nil_r. split; [by destruct w|].
      repeat split; try done. by intros e' [= ->]. }
  2:{ eexists _, _, []. unfold val_batch, bind, get_self, raise. cbn.
      rewrite app_nil_r. split; [by destruct w|].
      repeat split; try done. by intros e' [= ->]. }
  cbn [ret]. unfold bind at 1. cbn [get_self fst snd].
  unfold bind at 1. unfold truediv_float.
  cbn [set_val_loader set_training val_loader ld_len next_iter]. fold len.
  case_decide as Hlen.
  { eexists _, _, []. cbn. rewrite app_nil_r. split; [by destruct w|].
    repeat split; try done. }
  cbn [ret]. unfold bind at 1. unfold class_accuracy, truediv_int.
  case_decide as Hpd.
  { eexists _, _, []. cbn. rewrite app_nil_r. split; [by destruct w|].
    repeat split; try done. }
  cbn [ret]. unfold bind, print, add_scalar, emit, ret. cbn.
  eexists _, _, [_; _; _; _]. split.
  { rewrite <- !app_assoc. reflexivity. }
  repeat split; try done; try by simplify_eq.
  intros _ Hbs. exfalso. apply Hpd. subst pd. rewrite Hbs. reflexivity.
Qed.

(** ** One iteration of the epoch loop *)

(** The train iterator raises: the iteration stops before the checkpoint. *)
Lemma loop_body_train_fault epoch st e :
  fd_fault (train_feed st) = Some e ->
  exists st',
    loop_body epoch st = (Raise e, st')
    /\ training_epoch (fst st') = training_epoch (fst st)
    /\ files (snd st') = files (snd st)
    /\ saved (trace (snd st')) = saved (trace (snd st)).
Proof.
  destruct st as [self w]. intros Hfault.
  unfold loop_body. unfold bind at 1. cbn [get_self fst snd].
  unfold bind at 1. unfold print, emit. cbn [fst snd files trace].
  set (st1 := (self, _)).
  destruct (train_epoch_spec st1) as
    (r & self' & tail & Hrun & Hsaved & _ & _ & Hep & _ & _ & Hraise & _).
  rewrite (Hraise e Hfault) in Hrun.
  rewrite (bind_raise _ _ _ _ _ Hrun).
  eexists. split; [reflexivity|]. cbn.
  split; [done|]. split; [done|].
  rewrite !saved_app, Hsaved, !app_nil_r. unfold saved. cbn. by rewrite ?app_nil_r.
Qed.

(** The iteration completes: one checkpoint, one more epoch. *)
Lemma loop_body_ok epoch st st' :
  loop_body epoch st = (Ok tt, st') ->
  let path := checkpoint_path (pth_dir (fst st)) epoch in
  pth_dir (fst st') = pth_dir (fst st)
  /\ epochs (fst st') = epochs (fst st)
  /\ training_epoch (fst st') = training_epoch (fst st) + 1
  /\ total_iter (fst st') =
       total_iter (fst st) + Z.of_nat (length (fd_batches (train_feed st)))
  /\ saved (trace (snd st')) = saved (trace (snd st)) ++ [path]
  /\ exists ck,
       files (snd st') = <[path := ck]> (files (snd st))
       /\ ck_epoch ck = epoch
       /\ ck_total_iter ck = total_iter (fst st').
Proof.
  destruct st as [self w]. unfold loop_body.
  unfold bind at 1. cbn [get_self fst snd].
  unfold bind at 1. unfold print, emit. cbn [fst snd files trace].
  set (st1 := (self, _)).
  destruct (train_epoch_spec st1) as
    (r & self1 & tail1 & Hrun & Hsaved1 & Hdir1 & Hepochs1 & Hep1 & _ & Hit1 & _).
  destruct r as [[]|e]; [|by rewrite (bind_raise _ _ _ _ _ Hrun)].
  rewrite (bind_ok _ _ _ _ _ Hrun). clear Hrun.
  unfold bind at 1. cbn [get_self fst snd].
  unfold bind at 1. unfold save_checkpoint, bind at 1, write_file, emit.
  cbn [fst snd files trace].
  set (st2 := (self1, _)).
  destruct (val_spec st2) as
    (r & self2 & tail2 & Hrun & Hsaved2 & Hdir2 & Hepochs2 & Hep2 & Hit2 & _).
  destruct r as [x|e]; [|by rewrite (bind_raise _ _ _ _ _ Hrun)].
  rewrite (bind_ok _ _ _ _ _ Hrun). clear Hrun.
  unfold bind, get_self, modify_self. cbn. intros [= <-]. cbn.
  cbn in *.
  repeat split; try congruence.
  - rewrite Hit2, Hit1. reflexivity.
  - rewrite !saved_app, Hsaved1, Hsaved2, !app_nil_r, Hdir1.
    unfold saved. cbn. by rewrite ?app_nil_r.
  - eexists. split; [by rewrite Hdir1|]. cbn. split; [done|congruence].
Qed.

(** ** The epoch loop *)

Lemma for_range_app body (l1 l2 : list Z) st :
  for_range body (l1 ++ l2) st =
  match for_range body l1 st with
  | (Ok _, st1) => for_range body l2 st1
  | (Raise e, st1) => (Raise e, st1)
  end.
Proof.
  revert st. induction l1 as [|a l1 IH]; intros st; [done|].
  cbn [for_range app]. unfold bind.
  destruct (body a st) as [[[]|e] st1]; [apply IH|done].
Qed.

Lemma checkpoint_path_inj dir : Inj (=) (=) (checkpoint_path dir).
Proof. intros a b. apply PyFacts.join_format_inj. Qed.

(** A run of completed iterations over the epochs [l]. *)
Lemma for_range_ok (l : list Z) : forall st st',
  for_range loop_body l st = (Ok tt, st') ->
  let dir := pth_dir (fst st) in
  pth_dir (fst st') = dir
  /\ epochs (fst st') = epochs (fst st)
  /\ training_epoch (fst st') = training_epoch (fst st) + Z.of_nat (length l)
  /\ total_iter (fst st) <= total_iter (fst st')
  /\ saved (trace (snd st')) = saved (trace (snd st)) ++ map (checkpoint_path dir) l
  /\ (forall p, p ∉ map (checkpoint_path dir) l ->
        files (snd st') !! p = files (snd st) !! p)
  /\ (NoDup l -> forall e, e ∈ l ->
        exists ck, files (snd st') !! checkpoint_path dir e = Some ck
                   /\ ck_epoch ck = e
                   /\ total_iter (fst st) <= ck_total_iter ck <= total_iter (fst st')).
Proof.
  induction l as [|a l IH]; intros st st'.
  - cbn. intros [= <-]. rewrite app_nil_r.
    repeat split; try done; try lia.
    intros _ e He. by apply elem_of_nil in He.
  - cbn [for_range]. unfold bind.
    destruct (loop_body a st) as [[[]|e] st1] eqn:Hbody; [|done].
    intros Hrest.
    apply loop_body_ok in Hbody
      as (Hdir1 & Hepochs1 & Hep1 & Hit1 & Hsaved1 & ck & Hfiles1 & Hck1 & Hck2).
    apply IH in Hrest
      as (Hdir & Hepochs & Hep & Hit & Hsaved & Hother & Hmine).
    rewrite Hdir1 in *. cbn zeta.
    split; [done|]. split; [congruence|]. split; [cbn [length]; lia|].
    split; [lia|].
    split; [rewrite Hsaved, Hsaved1, <- app_assoc; reflexivity|].
    split.
    + intros p Hp. cbn [map] in Hp. apply not_elem_of_cons in Hp as [Hne Hp].
      rewrite (Hother p Hp), Hfiles1. by apply lookup_insert_ne.
    + intros Hnd e0 He0. apply NoDup_cons in Hnd as [Ha Hnd].
      apply elem_of_cons in He0 as [->|He0].
      * exists ck. rewrite Hother, Hfiles1, lookup_insert_eq.
        -- split; [done|]. split; [done|]. lia.
        -- intros Hin. apply list_elem_of_fmap in Hin as (b & Hb & Hin).
           apply checkpoint_path_inj in Hb as <-. done.
      * destruct (Hmine Hnd e0 He0) as (ck0 & ? & ? & ?).
        exists ck0. split; [done|]. split; [done|]. lia.
Qed.

Lemma loop_unfold st e1 :
  py_index (epochs (fst st)) = Ok e1 ->
  loop st = for_range loop_body (Py.range (training_epoch (fst st)) e1) st.
Proof.
  intros He. unfold loop. unfold bind at 1. cbn [get_self].
  unfold bind at 1. by rewrite He.
Qed.

(** C2. Running [loop] from [training_epoch = e0] to [epochs = e1], with
    [e0 < e1] and every pass completing, saves exactly [e1 - e0] checkpoint
    files, one per epoch index [e0 .. e1 - 1] and in that order, pairwise
    distinct, each named by its epoch index right-aligned with zeros in a
    field of eight characters (exactly eight for an index below 10^8); the
    file of epoch [e] holds epoch index [e], no other file is touched, and
    [training_epoch] is [e1] at the end. *)
Theorem loop_saves_one_checkpoint_per_epoch st st' e1 :
  py_index (epochs (fst st)) = Ok e1 ->
  training_epoch (fst st) < e1 ->
  loop st = (Ok tt, st') ->
  let e0 := training_epoch (fst st) in
  let dir := pth_dir (fst st) in
  let names := map (checkpoint_path dir) (Py.range e0 e1) in
  saved (trace (snd st')) = saved (trace (snd st)) ++ names
  /\ NoDup names
  /\ Z.of_nat (length names) = e1 - e0
  /\ (forall e, e0 <= e < e1 ->
        checkpoint_path dir e ∈ names
        /\ checkpoint_path dir e = Py.join dir [Py.rjust0 8 (pretty e) +:+ ".pth"]
        /\ exists ck, files (snd st') !! checkpoint_path dir e = Some ck
                      /\ ck_epoch ck = e)
  /\ (forall e, 0 <= e < 10 ^ 8 -> String.length (Py.format_0_8 e) = 8%nat)
  /\ (forall p, p ∉ names -> files (snd st') !! p = files (snd st) !! p)
  /\ training_epoch (fst st') = e1.
Proof.
  intros He1 Hlt Hloop e0 dir names.
  rewrite (loop_unfold _ _ He1) in Hloop.
  apply for_range_ok in Hloop
    as (_ & _ & Hep & _ & Hsaved & Hother & Hmine).
  split; [done|].
  split; [apply NoDup_fmap_2; [apply checkpoint_path_inj|apply PyFacts.range_NoDup]|].
  split; [unfold names; rewrite length_map, PyFacts.range_length; lia|].
  split.
  { intros e He. split; [|split; [reflexivity|]].
    - apply list_elem_of_fmap. exists e. split; [done|]. by apply PyFacts.elem_of_range.
    - destruct (Hmine (PyFacts.range_NoDup _ _) e) as (ck & ? & ? & _).
      + by apply PyFacts.elem_of_range.
      + by exists ck. }
  split; [apply PyFacts.format_0_8_width|].
  split; [done|].
  rewrite Hep, PyFacts.range_length. fold e0. lia.
Qed.

(** C9. If [training_epoch >= epochs] when [loop] is entered, it returns at
    once: no pass is run, nothing is printed, logged or saved, and the
    object, its counters included, is left as it was. *)
Theorem loop_nothing_left st e1 :
  py_index (epochs (fst st)) = Ok e1 ->
  e1 <= training_epoch (fst st) ->
  loop st = (Ok tt, st).
Proof.
  intros He1 Hle. rewrite (loop_unfold _ _ He1).
  by rewrite PyFacts.range_nil.
Qed.

(** C6. If the epochs before [k] complete and the train iterator raises [x]
    during epoch [k], then [loop] raises [x] to its caller; the last
    checkpoint saved is the one of epoch [k - 1], no file of epoch [k] is
    written (the files are those left by the epochs before), and
    [training_epoch] is still [k]. *)
Theorem loop_train_iterator_raises st e1 k sk x :
  py_index (epochs (fst st)) = Ok e1 ->
  training_epoch (fst st) <= k < e1 ->
  for_range loop_body (Py.range (training_epoch (fst st)) k) st = (Ok tt, sk) ->
  fd_fault (train_feed sk) = Some x ->
  let dir := pth_dir (fst st) in
  exists st',
    loop st = (Raise x, st')
    /\ files (snd st') = files (snd sk)
    /\ saved (trace (snd st')) =
         saved (trace (snd st))
         ++ map (checkpoint_path dir) (Py.range (training_epoch (fst st)) k)
    /\ (checkpoint_path dir k
         ∉ map (checkpoint_path dir) (Py.range (training_epoch (fst st)) k))
    /\ training_epoch (fst st') = k.
Proof.
  intros He1 Hk Hprefix Hfault dir.
  rewrite (loop_unfold _ _ He1).
  rewrite (PyFacts.range_split _ k e1) by lia.
  rewrite for_range_app, Hprefix.
  rewrite (PyFacts.range_cons k e1) by lia. cbn [for_range].
  destruct (loop_body_train_fault k sk x Hfault) as (st' & Hbody & Hep & Hfiles & Hsaved).
  rewrite (bind_raise _ _ _ _ _ Hbody).
  apply for_range_ok in Hprefix as (_ & _ & Hepk & _ & Hsavedk & _).
  exists st'. split; [done|]. split; [done|].
  split; [by rewrite Hsaved|].
  split.
  - intros Hin. apply list_elem_of_fmap in Hin as (b & Hb & Hin).
    apply checkpoint_path_inj in Hb as <-.
    apply PyFacts.elem_of_range in Hin. lia.
  - rewrite Hep, Hepk, PyFacts.range_length. lia.
Qed.

(** C4. One call of [train_epoch] increases [total_iter] by exactly the
    number of batches the train iterator produced in that pass; this holds
    for every pass that completes, and also for one that raises, where the
    batches counted are those processed to the end of the loop body. *)
Theorem train_epoch_counts_batches st :
  total_iter (fst (snd (train_epoch st))) =
  total_iter (fst st) + Z.of_nat (length (fd_batches (train_feed st))).
Proof.
  destruct (train_epoch_spec st)
    as (r & self' & tail & -> & _ & _ & _ & _ & _ & Hit & _).
  exact Hit.
Qed.

(** C10. A pass whose loader yields no batch ends in an uncaught
    [ZeroDivisionError] raised by the metric reduction, in [train_epoch] and
    in [val] alike; so whenever a pass returns, mean loss and accuracy having
    been computed, its loader has yielded at least one batch. *)
Theorem empty_pass_raises_division_error st :
  (fd_fault (train_feed st) = None -> fd_batches (train_feed st) = [] ->
     fst (train_epoch st) = Raise ZeroDivisionError)
  /\ (fd_fault (val_feed st) = None -> fd_batches (val_feed st) = [] ->
        fst (val st) = Raise ZeroDivisionError)
  /\ (fst (train_epoch st) = Ok tt -> fd_batches (train_feed st) <> [])
  /\ (forall x, fst (val st) = Ok x -> fd_batches (val_feed st) <> []).
Proof.
  destruct (train_epoch_spec st)
    as (r & self' & tail & -> & _ & _ & _ & _ & _ & _ & Hfault & Hempty & _).
  destruct (val_spec st)
    as (r2 & self2 & tail2 & -> & _ & _ & _ & _ & _ & _ & _ & _ & Hfault2 & Hempty2 & _).
  cbn [fst]. repeat split; try done.
  - intros -> Hbs. destruct (fd_fault (train_feed st)) as [e|] eqn:E.
    + by specialize (Hfault e eq_refl).
    + by specialize (Hempty eq_refl Hbs).
  - intros x -> Hbs. destruct (fd_fault (val_feed st)) as [e|] eqn:E.
    + by specialize (Hfault2 e eq_refl).
    + by specialize (Hempty2 eq_refl Hbs).
Qed.

(** ** Per-batch logging *)

Lemma iteration_scalars_batch_events len losses : forall i t,
  iteration_scalars (batch_events len i t losses)
  = imap (fun j loss => (loss, t + Z.of_nat j)) losses.
Proof.
  unfold batch_events.
  induction losses as [|l ls IH]; intros i t; [done|].
  rewrite !imap_cons. cbn [concat]. unfold iteration_scalars in *.
  rewrite !omap_app. unfold progress at 1. case_decide; cbn.
  all: f_equal.
  all: etrans; [|etrans; [apply (IH (S i) (t + 1))|]];
    [do 2 f_equal|]; apply imap_ext; intros j x _; unfold compose;
    replace (i + S j)%nat with (S i + j)%nat by lia;
    replace (t + Z.of_nat (S j)) with (t + 1 + Z.of_nat j) by lia; reflexivity.
Qed.

Lemma progress_lines_batch_events len losses : forall i t,
  progress_lines (batch_events len i t losses)
  = concat (imap (fun j loss =>
      if decide ((Z.of_nat (i + j) + 1) mod 100 = 0)
      then [(Z.of_nat (i + j) + 1, len, loss)] else []) losses).
Proof.
  unfold batch_events.
  induction losses as [|l ls IH]; intros i t; [done|].
  rewrite !imap_cons. cbn [concat]. unfold progress_lines in *.
  rewrite !omap_app. unfold progress at 1. case_decide; cbn.
  all: f_equal.
  all: etrans; [|etrans; [apply (IH (S i) (t + 1))|]];
    [do 2 f_equal|f_equal]; apply imap_ext; intros j x _; unfold compose;
    replace (i + S j)%nat with (S i + j)%nat by lia;
    replace (t + Z.of_nat (S j)) with (t + 1 + Z.of_nat j) by lia; reflexivity.
Qed.

Lemma batch_losses_length mode bs : forall om,
  length (batch_losses mode om bs) = length bs.
Proof.
  unfold batch_losses. induction bs as [|b bs IH]; intros om; [done|].
  cbn. by rewrite IH.
Qed.

(** C7. In [train_epoch] the batch at position [j] of the pass (counting
    from 0) has its loss logged against the step [total_iter + j], the value
    of the global step counter when the batch is reached, and the counter
    ends [length bs] higher: one increment per batch, whether or not the
    progress line is printed.  The progress line is printed for exactly the
    batches with [(j + 1) mod 100 = 0], with the number [j + 1]. *)
Theorem train_epoch_logs_every_batch st :
  let bs := fd_batches (train_feed st) in
  let losses := batch_losses true (optimizer (fst st), model (fst st)) bs in
  let t0 := total_iter (fst st) in
  let len := ld_len (train_loader (fst st)) in
  let st' := snd (train_epoch st) in
  exists ev tail,
    trace (snd st') = trace (snd st) ++ ev ++ tail
    /\ iteration_scalars ev = imap (fun j loss => (loss, t0 + Z.of_nat j)) losses
    /\ progress_lines ev =
         concat (imap (fun j loss =>
           if decide ((Z.of_nat j + 1) mod 100 = 0)
           then [(Z.of_nat j + 1, len, loss)] else []) losses)
    /\ iteration_scalars tail = []
    /\ progress_lines tail = []
    /\ length losses = length bs
    /\ total_iter (fst st') = t0 + Z.of_nat (length bs).
Proof.
  intros bs losses t0 len st'. subst st'.
  destruct (train_epoch_spec st)
    as (r & self' & tail & -> & _ & _ & _ & _ & _ & Hit & _ & _ & tail' & -> & Htail).
  cbn [fst snd trace]. exists (batch_events len 0 t0 losses), tail'.
  split; [done|].
  split; [apply iteration_scalars_batch_events|].
  split; [apply progress_lines_batch_events|].
  split; [by destruct Htail as [->|(x & q & ->)]|].
  split; [by destruct Htail as [->|(x & q & ->)]|].
  split; [apply batch_losses_length|done].
Qed.

(** ** Accuracy *)

Lemma py_sum_from (l : list bool) (a : Z) :
  fold_left (fun acc (b : bool) => acc + Z.b2z b) l a = a + py_sum l.
Proof.
  unfold py_sum. revert a.
  induction l as [|c l IH]; intros a; cbn [fold_left]; [lia|].
  rewrite (IH (a + Z.b2z c)), (IH (0 + Z.b2z c)). lia.
Qed.

Lemma py_sum_cons (b : bool) (l : list bool) : py_sum (b :: l) = Z.b2z b + py_sum l.
Proof. unfold py_sum at 1. cbn [fold_left]. rewrite py_sum_from. lia. Qed.

Lemma py_sum_array_eq (pd gt : list Z) :
  py_sum (array_eq pd gt) = Z.of_nat (matches pd gt).
Proof.
  unfold matches. revert gt.
  induction pd as [|p pd IH]; intros [|g gt]; try done.
  cbn [array_eq zip zip_with]. rewrite py_sum_cons, IH, filter_cons. cbn [fst snd].
  case_decide; cbn [length Z.b2z]; lia.
Qed.

Lemma matches_refl (pd : list Z) : matches pd pd = length pd.
Proof.
  unfold matches. induction pd as [|p pd IH]; [done|].
  cbn [zip zip_with]. rewrite filter_cons. cbn [fst snd].
  case_decide; [|done]. cbn [length]. by rewrite <- IH.
Qed.

(** The reduction itself, on any two arrays: the accuracy is the number of
    positions at which the predicted class equals the ground-truth label,
    divided by the number of predictions: 1 when every prediction equals its
    label, 0 when none does.  It is computed whenever there is at least one
    prediction. *)
Theorem class_accuracy_is_match_ratio (pd gt : list Z) st :
  (pd <> [] -> exists q, class_accuracy pd gt st = (Ok q, st))
  /\ forall q st',
       class_accuracy pd gt st = (Ok q, st') ->
       q = (inject_Z (Z.of_nat (matches pd gt)) / inject_Z (Z.of_nat (length pd)))%Q
       /\ (pd = gt -> q == 1)%Q
       /\ (matches pd gt = 0%nat -> q == 0)%Q.
Proof.
  unfold class_accuracy, truediv_int. rewrite py_sum_array_eq. split.
  - intros Hpd. case_decide as Hlen; [by destruct pd|]. by eexists.
  - intros q st'. case_decide as Hlen; [done|]. intros [= <- <-].
    split; [reflexivity|]. split.
    + intros <-. rewrite matches_refl. apply Qmult_inv_r.
      unfold Qeq. cbn. lia.
    + intros ->. unfold Qdiv. apply Qmult_0_l.
Qed.

(** ** Validation *)

(** C8. [val] returns the accumulated loss divided by [len(self.val_loader)],
    the number of validation batches; it leaves the model parameters, the
    optimizer state, [total_iter] and [training_epoch] as they were; and the
    accuracy is printed and logged under its own key but is not part of the
    returned value. *)
Theorem val_returns_mean_loss st :
  let bs := fd_batches (val_feed st) in
  let m := model (fst st) in
  let losses := map (fun b => criterion (forward m false b) b) bs in
  let gt := concat (map batch_class bs) in
  let pd := concat (map (fun b => topk1 (forward m false b)) bs) in
  let len := ld_len (val_loader (fst st)) in
  let epoch := training_epoch (fst st) in
  let st' := snd (val st) in
  model (fst st') = m
  /\ optimizer (fst st') = optimizer (fst st)
  /\ total_iter (fst st') = total_iter (fst st)
  /\ training_epoch (fst st') = epoch
  /\ forall x : float, fst (val st) = Ok x ->
       let accuracy :=
         (inject_Z (Z.of_nat (matches pd gt)) / inject_Z (Z.of_nat (length pd)))%Q in
       x = fdiv (fold_left fadd losses (float_of_int 0)) (float_of_int (Z.of_nat len))
       /\ (len = length bs ->
             x = fdiv (fold_left fadd losses (float_of_int 0))
                   (float_of_int (Z.of_nat (length bs))))
       /\ trace (snd st') = trace (snd st)
            ++ [Print (LValLoss x); Print (LValAcc accuracy);
                AddScalar "Validation loss" (SFloat x) epoch;
                AddScalar "Validation CLASS accuracy" (SRat accuracy) epoch].
Proof.
  intros bs m losses gt pd len epoch st'. subst st'.
  destruct (val_spec st)
    as (r & self' & tail & -> & _ & _ & _ & Hep & Hit & Hm & Ho & _ & _ & _ & Hok).
  cbn [fst snd trace]. do 4 (split; [done|]).
  intros x ->. destruct (Hok x eq_refl) as [Hx ->].
  cbn zeta. split; [exact Hx|]. split; [by intros <-|].
  by rewrite py_sum_array_eq.
Qed.

(** ** Construction *)

Variable ecgNet : gmap string json -> Model.
Variable Adam : Model -> json -> Optim.
Variable get_dataloader : json -> json -> json -> json -> Loader.

Ltac rbind_ok H :=
  match type of H with
  | rbind ?r _ = Ok _ =>
      let v := fresh "v" in
      destruct r as [v|] eqn:?; cbn [rbind] in H; [|discriminate H]
  end.

Lemma load_checkpoint_ok (path : json) (fs : gmap string Checkpoint) m o e n :
  load_checkpoint path fs = Ok (m, o, (e, n)) ->
  exists p ck, path = JStr p /\ fs !! p = Some ck
               /\ m = ck_state_dict ck /\ o = ck_optimizer ck
               /\ e = ck_epoch ck /\ n = ck_total_iter ck.
Proof.
  unfold load_checkpoint. destruct path as [| | | |p]; try done. cbn.
  destruct (fs !! p) as [ck|] eqn:Hck; [|done].
  intros [= <- <- <- <-]. by exists p, ck.
Qed.

(** C3. After a construction that succeeds, [training_epoch] and
    [total_iter] are both 0, unless the key [model_path] is present with a
    truthy value: then they are the epoch index and the step count that
    [load_checkpoint] returns, those stored in the checkpoint at that path. *)
Theorem init_counters cfg w self :
  __init__ ecgNet Adam get_dataloader cfg w = Ok self ->
  let path := default (JBool false) (cfg !! "model_path") in
  (truthy path = true <-> exists v, cfg !! "model_path" = Some v /\ truthy v = true)
  /\ if truthy path
     then exists m o e n,
            load_checkpoint path (files w) = Ok (m, o, (e, n))
            /\ training_epoch self = e /\ total_iter self = n
            /\ exists p ck, path = JStr p /\ files w !! p = Some ck
                            /\ e = ck_epoch ck /\ n = ck_total_iter ck
     else training_epoch self = 0 /\ total_iter self = 0.
Proof.
  intros Hinit path. split.
  { subst path. destruct (cfg !! "model_path") as [v|]; cbn.
    - split; [by exists v|]. by intros (v' & [= <-] & ?).
    - split; [discriminate|]. intros (v' & Hv & _). discriminate Hv. }
  unfold __init__ in Hinit. do 21 rbind_ok Hinit. subst path.
  set (path := default (JBool false) (cfg !! "model_path")) in *.
  destruct (truthy path).
  - destruct (load_checkpoint path (files w)) as [[[m o] [e n]]|] eqn:Hload;
      cbn [rbind] in Hinit; [|done].
    rbind_ok Hinit. injection Hinit as <-. cbn.
    exists m, o, e, n. do 3 (split; [done|]).
    apply load_checkpoint_ok in Hload as (p & ck & ? & ? & _ & _ & ? & ?).
    by exists p, ck.
  - cbn [rbind] in Hinit. rbind_ok Hinit. by injection Hinit as <-.
Qed.

End TrainerFacts.

(** ** The trainer at work on the small framework *)

Module DemoFacts.
Import Demo.
#[local] Existing Instance Demo.torch.

Example new_fresh :
  new (base_config "train.json" 2) world0 = Ok (trainer "train.json" 0 0 2).
Proof. vm_compute. reflexivity. Qed.

Lemma loop_saves_one_checkpoint_per_epoch_witness :
  let st := (trainer "train.json" 0 0 2, world0) in
  py_index (epochs (fst st)) = Ok 2
  /\ training_epoch (fst st) < 2
  /\ saved (trace (snd (snd (loop st)))) =
       ["exp/run/checkpoints/00000000.pth"; "exp/run/checkpoints/00000001.pth"]
  /\ training_epoch (fst (snd (loop st))) = 2.
Proof.
  intros st. split; [reflexivity|]. split; [reflexivity|].
  destruct (loop_saves_one_checkpoint_per_epoch st (snd (loop st)) 2)
    as (Hsaved & _ & _ & _ & _ & _ & Hep).
  - reflexivity.
  - reflexivity.
  - vm_compute. reflexivity.
  - split; [exact Hsaved | exact Hep].
Defined.

Lemma loop_nothing_left_witness :
  let st := (trainer "train.json" 2 4 2, world0) in
  py_index (epochs (fst st)) = Ok 2
  /\ 2 <= training_epoch (fst st)
  /\ loop st = (Ok tt, st).
Proof.
  intros st. split; [reflexivity|]. split; [discriminate|].
  apply (loop_nothing_left st 2); [reflexivity | discriminate].
Defined.

Lemma loop_train_iterator_raises_witness :
  let st := (trainer "flaky.json" 0 0 3, world0) in
  let sk := snd (for_range loop_body (Py.range 0 1) st) in
  py_index (epochs (fst st)) = Ok 3
  /\ training_epoch (fst st) <= 1 < 3
  /\ for_range loop_body (Py.range (training_epoch (fst st)) 1) st = (Ok tt, sk)
  /\ fd_fault (train_feed sk) = Some (LoaderError "read")
  /\ exists st',
       loop st = (Raise (LoaderError "read"), st')
       /\ saved (trace (snd st')) = ["exp/run/checkpoints/00000000.pth"]
       /\ training_epoch (fst st') = 1.
Proof.
  intros st sk.
  assert (py_index (epochs (fst st)) = Ok 3) as H1 by reflexivity.
  assert (training_epoch (fst st) <= 1 < 3) as H2 by (split; [discriminate|reflexivity]).
  assert (for_range loop_body (Py.range (training_epoch (fst st)) 1) st = (Ok tt, sk))
    as H3 by (vm_compute; reflexivity).
  assert (fd_fault (train_feed sk) = Some (LoaderError "read"))
    as H4 by (vm_compute; reflexivity).
  do 4 (split; [assumption|]).
  destruct (loop_train_iterator_raises st 3 1 sk (LoaderError "read") H1 H2 H3 H4)
    as (st' & Hloop & _ & Hsaved & _ & Hep).
  exists st'. split; [exact Hloop|]. split; [exact Hsaved | exact Hep].
Defined.

Lemma empty_pass_raises_division_error_witness :
  let empty_st := (trainer "empty.json" 0 0 1, world0) in
  let empty_val := (set_val_loader empty (trainer "train.json" 0 0 1), world0) in
  let st := (trainer "train.json" 0 0 1, world0) in
  fst (train_epoch empty_st) = Raise ZeroDivisionError
  /\ fst (val empty_val) = Raise ZeroDivisionError
  /\ fd_batches (train_feed st) <> []
  /\ fd_batches (val_feed st) <> [].
Proof.
  intros empty_st empty_val st.
  split; [|split; [|split]].
  - apply (proj1 (empty_pass_raises_division_error empty_st)); reflexivity.
  - apply (proj1 (proj2 (empty_pass_raises_division_error empty_val))); reflexivity.
  - apply (proj1 (proj2 (proj2 (empty_pass_raises_division_error st)))).
    vm_compute. reflexivity.
  - apply (proj2 (proj2 (proj2 (empty_pass_raises_division_error st))) (2 # 2)%Q).
    vm_compute. reflexivity.
Defined.

Lemma class_accuracy_is_match_ratio_witness :
  let st := (trainer "train.json" 0 0 1, world0) in
  [1; 0; 2] <> ([] : list Z)
  /\ class_accuracy [1; 0; 2] [1; 1; 2] st = (Ok (2 # 3)%Q, st)
  /\ (2 # 3)%Q = (inject_Z 2 / inject_Z 3)%Q
  /\ (exists q, class_accuracy [7; 8] [7; 8] st = (Ok q, st) /\ (q == 1)%Q)
  /\ (exists q, class_accuracy [7; 8] [8; 7] st = (Ok q, st) /\ (q == 0)%Q).
Proof.
  intros st.
  assert (class_accuracy [1; 0; 2] [1; 1; 2] st = (Ok (2 # 3)%Q, st)) as H
    by (vm_compute; reflexivity).
  split; [discriminate|]. split; [exact H|]. split.
  - exact (proj1 (proj2 (class_accuracy_is_match_ratio [1; 0; 2] [1; 1; 2] st)
                    (2 # 3)%Q st H)).
  - split.
    + destruct (proj1 (class_accuracy_is_match_ratio [7; 8] [7; 8] st))
        as [q Hq]; [discriminate|].
      exists q. split; [exact Hq|].
      exact (proj1 (proj2 (proj2 (class_accuracy_is_match_ratio [7; 8] [7; 8] st)
                                q st Hq)) eq_refl).
    + destruct (proj1 (class_accuracy_is_match_ratio [7; 8] [8; 7] st))
        as [q Hq]; [discriminate|].
      exists q. split; [exact Hq|].
      exact (proj2 (proj2 (proj2 (class_accuracy_is_match_ratio [7; 8] [8; 7] st)
                                q st Hq)) eq_refl).
Defined.

Lemma val_returns_mean_loss_witness :
  let st := (trainer "train.json" 0 0 1, world0) in
  fst (val st) = Ok (2 # 2)%Q
  /\ (2 # 2)%Q = Qdiv (fold_left Qplus [1%Q; 1%Q] (inject_Z 0)) (inject_Z 2)
  /\ total_iter (fst (snd (val st))) = 0.
Proof.
  intros st.
  assert (fst (val st) = Ok (2 # 2)%Q) as H by (vm_compute; reflexivity).
  split; [exact H|].
  destruct (val_returns_mean_loss st) as (_ & _ & Hit & _ & Hok).
  destruct (Hok (2 # 2)%Q H) as (Hx & _).
  split; [exact Hx | exact Hit].
Defined.

Lemma init_counters_witness :
  let ck := {| ck_state_dict := 4%nat; ck_optimizer := 4%nat;
               ck_epoch := 1; ck_total_iter := 4 |} in
  let w := {| files := {["exp/run/checkpoints/00000001.pth" := ck]}; trace := [] |} in
  let cfg := <["model_path" := JStr "exp/run/checkpoints/00000001.pth"]>
               (base_config "train.json" 2) in
  exists self,
    new cfg w = Ok self
    /\ training_epoch self = 1 /\ total_iter self = 4.
Proof.
  intros ck w cfg.
  destruct (new cfg w) as [self|e] eqn:Hnew; [|vm_compute in Hnew; discriminate Hnew].
  exists self. split; [reflexivity|].
  destruct (init_counters ecgNet Adam get_dataloader cfg w self Hnew) as [_ Hc].
  change (truthy (default (JBool false) (cfg !! "model_path"))) with true in Hc.
  destruct Hc as (m & o & e & n & Hload & -> & -> & _).
  vm_compute in Hload. injection Hload as _ _ <- <-. split; reflexivity.
Defined.

(** C1. Resuming from a checkpoint written by [loop]: a run of two epochs
    completes and leaves the checkpoints of epochs 0 and 1, with two
    train-and-validate cycles done; a trainer constructed from the checkpoint
    of epoch 1 starts with [training_epoch = 1] and [total_iter = 4], and its
    [loop] trains epoch 1 a second time, printing the banner of the second
    epoch again and saving the file of epoch 1 again, with six steps counted
    in it. *)
Theorem resume_repeats_saved_epoch :
  let cfg := base_config "train.json" 2 in
  let p0 := "exp/run/checkpoints/00000000.pth" in
  let p1 := "exp/run/checkpoints/00000001.pth" in
  let cfg' := <["model_path" := JStr p1]> cfg in
  let (r1, w1) := run cfg world0 in
  let (r2, w2) := run cfg' w1 in
  r1 = Ok tt
  /\ saved (trace w1) = [p0; p1]
  /\ ck_total_iter <$> files w1 !! p1 = Some 4
  /\ match new cfg' w1 with
     | Ok self => training_epoch self = 1 /\ total_iter self = 4
     | Raise _ => False
     end
  /\ r2 = Ok tt
  /\ saved (trace w2) = [p0; p1; p1]
  /\ ck_total_iter <$> files w2 !! p1 = Some 6
  /\ banners (trace w2) = [1; 2; 2].
Proof. vm_compute. repeat split. Qed.

End DemoFacts.

(** * Further properties of the passes, the loop and the constructor *)

Section PassFacts.

Context `{T : Torch}.
Implicit Types (st : St) (self : ecgTrainer) (w : World) (bs : list Batch).

#[local] Arguments saved : simpl never.
#[local] Arguments checkpoint_path : simpl never.

(** [train_epoch], in closed form. *)
Lemma train_epoch_run self w :
  let st := (self, w) in
  let bs := fd_batches (train_feed st) in
  let losses := batch_losses true (optimizer self, model self) bs in
  let len := ld_len (train_loader self) in
  let ev := batch_events len 0 (total_iter self) losses in
  let x := fdiv (fold_left fadd losses (float_of_int 0)) (float_of_int (Z.of_nat len)) in
  let q := (inject_Z (py_sum (array_eq (train_pd st) (train_gt st)))
            / inject_Z (Z.of_nat (length (train_pd st))))%Q in
  train_epoch st =
  match pass_outcome (fd_fault (train_feed st)) len (length (train_pd st)) with
  | Raise e =>
      (Raise e, (after_train self, {| files := files w; trace := trace w ++ ev |}))
  | Ok _ =>
      (Ok tt,
       (after_train self,
        {| files := files w;
           trace := trace w ++ ev
             ++ [Print (LTrainLoss x); Print (LTrainAcc q);
                 AddScalar "Train loss (epochs)" (SFloat x) (training_epoch self);
                 AddScalar "Train CLASS accuracy" (SRat q) (training_epoch self)] |}))
  end.
Proof.
  intros st bs losses len ev x q. subst st.
  unfold train_pd, train_gt, train_feed in *. cbn [fst snd] in *.
  unfold train_epoch.
  unfold bind at 1. cbn [modify_self fst snd].
  unfold bind at 1. unfold iter_train_loader.
  unfold bind at 1. cbn [get_self modify_self fst snd].
  unfold bind at 1. cbn [modify_self ret fst snd].
  unfold bind at 1. unfold for_loader. unfold bind at 1.
  rewrite for_enumerate_train. cbn [fst snd set_train_loader set_training
    optimizer model training train_loader total_iter files trace ld_len next_iter
    app].
  fold bs. fold losses. fold len. fold ev.
  unfold pass_outcome, fd_fault, after_train.
  destruct (fd_end _) as [|e|b e].
  2: reflexivity.
  2:{ unfold train_batch, bind, get_self, modify_self, raise. reflexivity. }
  cbn [ret]. unfold bind at 1. cbn [get_self fst snd].
  unfold bind at 1. unfold truediv_float.
  cbn [set_total_iter set_params set_train_loader set_training train_loader
       ld_len next_iter]. fold len.
  destruct (decide (len = 0%nat)) as [Hlen|Hlen].
  { rewrite decide_True by lia. reflexivity. }
  rewrite decide_False by lia.
  cbn [ret]. unfold bind at 1. unfold class_accuracy, truediv_int.
  destruct (decide (length _ = 0%nat)) as [Hpd|Hpd].
  { rewrite decide_True by lia. reflexivity. }
  rewrite decide_False by lia.
  cbn [ret]. unfold bind, print, add_scalar, emit. cbn [fst snd files trace].
  rewrite <- !app_assoc. reflexivity.
Qed.

(** [val], in closed form. *)
Lemma val_run self w :
  let st := (self, w) in
  let bs := fd_batches (val_feed st) in
  let losses := map (fun b => criterion (forward (model self) false b) b) bs in
  let len := ld_len (val_loader self) in
  let x := fdiv (fold_left fadd losses (float_of_int 0)) (float_of_int (Z.of_nat len)) in
  let q := (inject_Z (py_sum (array_eq (val_pd st) (val_gt st)))
            / inject_Z (Z.of_nat (length (val_pd st))))%Q in
  val st =
  match pass_outcome (fd_fault (val_feed st)) len (length (val_pd st)) with
  | Raise e => (Raise e, (after_val self, w))
  | Ok _ =>
      (Ok x,
       (after_val self,
        {| files := files w;
           trace := trace w
             ++ [Print (LValLoss x); Print (LValAcc q);
                 AddScalar "Validation loss" (SFloat x) (training_epoch self);
                 AddScalar "Validation CLASS accuracy" (SRat q)
                   (training_epoch self)] |}))
  end.
Proof.
  intros st bs losses len x q. subst st.
  unfold val_pd, val_gt, val_feed in *. cbn [fst snd] in *.
  unfold val.
  unfold bind at 1. cbn [modify_self fst snd].
  unfold bind at 1. unfold iter_val_loader.
  unfold bind at 1. cbn [get_self modify_self fst snd].
  unfold bind at 1. cbn [modify_self ret fst snd].
  unfold bind at 1. unfold for_loader. unfold bind at 1.
  rewrite for_enumerate_val. cbn [fst snd set_val_loader set_training
    optimizer model training val_loader total_iter files trace ld_len next_iter
    app].
  fold bs. fold losses. fold len.
  change (set_val_loader _ _) with (after_val self).
  unfold pass_outcome, fd_fault.
  destruct (fd_end _) as [|e|b e].
  2: reflexivity.
  2:{ unfold val_batch, bind, get_self, raise. reflexivity. }
  cbn [ret]. unfold bind at 1. cbn [get_self fst snd].
  unfold bind at 1. unfold truediv_float.
  replace (ld_len (val_loader (after_val self))) with len by reflexivity.
  destruct (decide (len = 0%nat)) as [Hlen|Hlen].
  { rewrite decide_True by lia. reflexivity. }
  rewrite decide_False by lia.
  cbn [ret]. unfold bind at 1. unfold class_accuracy, truediv_int.
  destruct (decide (length _ = 0%nat)) as [Hpd|Hpd].
  { rewrite decide_True by lia. reflexivity. }
  rewrite decide_False by lia.
  cbn [ret]. unfold bind, print, add_scalar, emit, ret. cbn [fst snd files trace].
  replace (training_epoch (after_val self)) with (training_epoch self) by reflexivity.
  rewrite <- !app_assoc. reflexivity.
Qed.

(** ** The accuracy of a pass *)

(** C5. In a training pass and in a validation pass alike, the accuracy that
    is printed and logged when the pass completes is computed from what the
    pass has accumulated over all its batches: the predicted classes of every
    batch and the ground-truth labels of every batch, concatenated in the
    order of the batches.  It is the number of positions at which prediction
    and label agree, divided by the number of predictions of the pass, which
    is not zero; so it is 1 when every prediction equals its label and 0 when
    none does. *)
Theorem pass_accuracy_is_match_ratio st :
  let accuracy (pd gt : list Z) : Q :=
    (inject_Z (Z.of_nat (matches pd gt)) / inject_Z (Z.of_nat (length pd)))%Q in
  (fst (train_epoch st) = Ok tt ->
     let bs := fd_batches (train_feed st) in
     let pd :=
       concat (map topk1 (batch_scores true (optimizer (fst st), model (fst st)) bs)) in
     let gt := concat (map batch_class bs) in
     (exists x,
        trace (snd (snd (train_epoch st))) =
          trace (snd st)
          ++ batch_events (ld_len (train_loader (fst st))) 0 (total_iter (fst st))
               (batch_losses true (optimizer (fst st), model (fst st)) bs)
          ++ [Print (LTrainLoss x); Print (LTrainAcc (accuracy pd gt));
              AddScalar "Train loss (epochs)" (SFloat x) (training_epoch (fst st));
              AddScalar "Train CLASS accuracy" (SRat (accuracy pd gt))
                (training_epoch (fst st))])
     /\ pd <> []
     /\ (pd = gt -> accuracy pd gt == 1)%Q
     /\ (matches pd gt = 0%nat -> accuracy pd gt == 0)%Q)
  /\ (forall loss, fst (val st) = Ok loss ->
       let bs := fd_batches (val_feed st) in
       let pd := concat (map (fun b => topk1 (forward (model (fst st)) false b)) bs) in
       let gt := concat (map batch_class bs) in
       trace (snd (snd (val st))) =
         trace (snd st)
         ++ [Print (LValLoss loss); Print (LValAcc (accuracy pd gt));
             AddScalar "Validation loss" (SFloat loss) (training_epoch (fst st));
             AddScalar "Validation CLASS accuracy" (SRat (accuracy pd gt))
               (training_epoch (fst st))]
       /\ pd <> []
       /\ (pd = gt -> accuracy pd gt == 1)%Q
       /\ (matches pd gt = 0%nat -> accuracy pd gt == 0)%Q).
Proof.
  intros accuracy.
  assert (forall pd gt : list Z, pd <> [] ->
            (pd = gt -> accuracy pd gt == 1)%Q
            /\ (matches pd gt = 0%nat -> accuracy pd gt == 0)%Q) as Hratio.
  { intros pd gt Hpd. subst accuracy. cbv beta. split.
    - intros <-. rewrite matches_refl. apply Qmult_inv_r.
      destruct pd; [done|]. unfold Qeq. cbn. lia.
    - intros ->. unfold Qdiv. apply Qmult_0_l. }
  destruct st as [self w]. split.
  - intros Hok bs pd gt. rewrite train_epoch_run in Hok |- *.
    change (train_pd (self, w)) with pd in *. change (train_gt (self, w)) with gt in *.
    cbn [fst snd] in *.
    assert (pd <> []) as Hpd.
    { intros Hnil. unfold pass_outcome in Hok. rewrite Hnil in Hok.
      destruct (fd_fault _); [done|]. cbn [length] in Hok.
      destruct (decide (ld_len (train_loader self) = 0%nat)); done. }
    destruct (pass_outcome _ _ _) as [[]|e]; [|done].
    cbn [snd trace]. split.
    { eexists. rewrite py_sum_array_eq. reflexivity. }
    split; [done|]. by apply Hratio.
  - intros loss Hok bs pd gt. rewrite val_run in Hok |- *.
    change (val_pd (self, w)) with pd in *. change (val_gt (self, w)) with gt in *.
    cbn [fst snd] in *.
    assert (pd <> []) as Hpd.
    { intros Hnil. unfold pass_outcome in Hok. rewrite Hnil in Hok.
      destruct (fd_fault _); [done|]. cbn [length] in Hok.
      destruct (decide (ld_len (val_loader self) = 0%nat)); done. }
    destruct (pass_outcome _ _ _) as [[]|e]; [|done].
    injection Hok as <-. cbn [snd trace]. split.
    { rewrite py_sum_array_eq. reflexivity. }
    split; [done|]. by apply Hratio.
Qed.

(** X1. How [train_epoch] ends: an exception that stops its loop over the
    train loader, raised by the iterator or by a call made on a batch, is the
    exception of the pass; if the loop runs to its end, a loader of length 0
    or a pass that has collected no prediction ends it in
    [ZeroDivisionError]; otherwise it returns.  ([print] and the writer are
    taken not to raise.) *)
Theorem train_epoch_outcome st :
  fst (train_epoch st) =
  pass_outcome (fd_fault (train_feed st)) (ld_len (train_loader (fst st)))
    (length (train_pd st)).
Proof.
  destruct st as [self w]. rewrite train_epoch_run. cbn [fst].
  by destruct (pass_outcome _ _ _) as [[]|e].
Qed.

(** X2. [val] ends in the same way, on the validation loader: with the
    exception that stops its loop, raised by the iterator or by a call made
    on a batch; with [ZeroDivisionError] for a loader of length 0 or a pass
    without predictions; and with a value otherwise.  ([print] and the
    writer are taken not to raise.) *)
Theorem val_outcome st :
  match fst (val st) with
  | Ok _ => Ok tt
  | Raise e => Raise e
  end =
  pass_outcome (fd_fault (val_feed st)) (ld_len (val_loader (fst st)))
    (length (val_pd st)).
Proof.
  destruct st as [self w]. rewrite val_run. cbn [fst].
  by destruct (pass_outcome _ _ _) as [[]|e].
Qed.

(** X3. Whatever the outcome of [train_epoch], the object it leaves has
    taken one optimizer step per batch processed to the end of the loop
    body, in order, and its step counter has advanced by the number of those
    batches: nothing is rolled back when the pass raises afterwards.  A batch
    whose own processing raises is not counted and leaves the parameters as
    the framework left them.  The network is in train mode, the train loader
    one iteration further, and no other attribute changes. *)
Theorem train_epoch_object st :
  let bs := fd_batches (train_feed st) in
  let om := params_after true (optimizer (fst st), model (fst st)) bs in
  let self' := fst (snd (train_epoch st)) in
  (optimizer self', model self') =
    match fd_end (train_feed st) with
    | BatchRaises b _ => interrupted (fst om) (snd om) b
    | _ => om
    end
  /\ total_iter self' = total_iter (fst st) + Z.of_nat (length bs)
  /\ training self' = true
  /\ ld_iters (train_loader self') = S (ld_iters (train_loader (fst st)))
  /\ ld_feed (train_loader self') = ld_feed (train_loader (fst st))
  /\ val_loader self' = val_loader (fst st)
  /\ training_epoch self' = training_epoch (fst st)
  /\ epochs self' = epochs (fst st)
  /\ config self' = config (fst st)
  /\ pth_dir self' = pth_dir (fst st)
  /\ log_dir self' = log_dir (fst st)
  /\ exp_name self' = exp_name (fst st).
Proof.
  destruct st as [self w]. intros bs om self'.
  assert (self' = after_train self) as ->.
  { subst self'. rewrite train_epoch_run. cbn [fst snd].
    by destruct (pass_outcome _ _ _) as [[]|e]. }
  subst bs om. unfold after_train, train_feed. cbn [fst snd].
  split; [|done].
  by destruct (fd_end _) as [|e|b e]; cbn; destruct (params_after _ _ _);
    try destruct (interrupted _ _ _).
Qed.

(** X4. [val] changes two things in the object, whatever its outcome: the
    network is left in eval mode and the validation loader is one iteration
    further; the train loader is not consumed. *)
Theorem val_object st :
  fst (snd (val st)) = after_val (fst st)
  /\ training (after_val (fst st)) = false
  /\ train_loader (after_val (fst st)) = train_loader (fst st)
  /\ ld_iters (val_loader (after_val (fst st))) = S (ld_iters (val_loader (fst st))).
Proof.
  destruct st as [self w]. rewrite val_run. cbn [fst snd].
  split; [by destruct (pass_outcome _ _ _) as [[]|e]|done].
Qed.

(** X5. A training pass that completes prints and logs, after the events of
    its batches, the accumulated loss divided by [len(self.train_loader)]
    and the accuracy, the share of positions where prediction and label
    agree; both are logged against [training_epoch], which the pass does not
    change. *)
Theorem train_epoch_epoch_metrics st :
  fst (train_epoch st) = Ok tt ->
  let self := fst st in
  let losses :=
    batch_losses true (optimizer self, model self) (fd_batches (train_feed st)) in
  let len := ld_len (train_loader self) in
  let x := fdiv (fold_left fadd losses (float_of_int 0)) (float_of_int (Z.of_nat len)) in
  let q := (inject_Z (Z.of_nat (matches (train_pd st) (train_gt st)))
            / inject_Z (Z.of_nat (length (train_pd st))))%Q in
  trace (snd (snd (train_epoch st))) =
    trace (snd st) ++ batch_events len 0 (total_iter self) losses
    ++ [Print (LTrainLoss x); Print (LTrainAcc q);
        AddScalar "Train loss (epochs)" (SFloat x) (training_epoch self);
        AddScalar "Train CLASS accuracy" (SRat q) (training_epoch self)].
Proof.
  destruct st as [self w]. rewrite train_epoch_run. cbn [fst snd].
  destruct (pass_outcome _ _ _) as [[]|e]; [|done]. intros _.
  cbn [snd trace]. by rewrite py_sum_array_eq.
Qed.

(** X6. Neither pass calls [save_checkpoint] or touches the checkpoint
    files, and [val] calls [print] and [add_scalar] only at the end: when it
    raises it has made no such call, and when it returns it has made exactly
    four, none of them a per-batch loss or a progress line.  (The indicator
    of [tqdm] on the standard error stream is not among the recorded
    calls.) *)
Theorem passes_leave_files st :
  files (snd (snd (train_epoch st))) = files (snd st)
  /\ saved (trace (snd (snd (train_epoch st)))) = saved (trace (snd st))
  /\ files (snd (snd (val st))) = files (snd st)
  /\ saved (trace (snd (snd (val st)))) = saved (trace (snd st))
  /\ iteration_scalars (trace (snd (snd (val st)))) = iteration_scalars (trace (snd st))
  /\ progress_lines (trace (snd (snd (val st)))) = progress_lines (trace (snd st))
  /\ (forall e, fst (val st) = Raise e -> snd (snd (val st)) = snd st)
  /\ (forall x, fst (val st) = Ok x ->
        length (trace (snd (snd (val st)))) = (length (trace (snd st)) + 4)%nat).
Proof.
  destruct st as [self w]. rewrite train_epoch_run, val_run. cbn [fst snd].
  split; [by destruct (pass_outcome _ _ _) as [[]|e]|].
  split.
  { destruct (pass_outcome _ _ _) as [[]|e]; cbn [snd trace];
      rewrite !saved_app, saved_batch_events, ?app_nil_r; done. }
  destruct (pass_outcome _ _ _) as [[]|e]; cbn [fst snd files trace].
  - split; [done|]. unfold saved, iteration_scalars, progress_lines.
    rewrite !omap_app. cbn. rewrite !app_nil_r.
    repeat split; try done. intros _ _. rewrite length_app. reflexivity.
  - repeat split; done.
Qed.

End PassFacts.

Section LoopFacts.

Context `{T : Torch}.
Implicit Types (st : St) (self : ecgTrainer) (w : World) (bs : list Batch).

#[local] Arguments saved : simpl never.
#[local] Arguments banners : simpl never.
#[local] Arguments checkpoint_path : simpl never.

Lemma banners_app (tr1 tr2 : list event) :
  banners (tr1 ++ tr2) = banners tr1 ++ banners tr2.
Proof. apply omap_app. Qed.

Lemma banners_batch_events len losses : forall i t,
  banners (batch_events len i t losses) = [].
Proof.
  unfold batch_events.
  induction losses as [|l ls IH]; intros i t; [done|].
  rewrite imap_cons. cbn [concat]. rewrite !banners_app.
  assert (banners (progress len (i + 0) l) = []) as ->
    by (unfold progress; by case_decide).
  etrans; [|apply (IH (S i) (t + 1))].
  assert (forall tag v step, banners [AddScalar tag v step] = []) as ->
    by reflexivity.
  cbn [app]. f_equal. f_equal. apply imap_ext. intros j x _. unfold compose.
  replace (i + S j)%nat with (S i + j)%nat by lia.
  replace (t + Z.of_nat (S j)) with (t + 1 + Z.of_nat j) by lia. reflexivity.
Qed.

(** One iteration of the loop, by cases on the outcomes of its two passes;
    [t1] and [t2] are what the passes print and log. *)
Lemma loop_body_cases epoch self w :
  let s1 := after_train self in
  let o1 := pass_outcome (fd_fault (train_feed (self, w)))
              (ld_len (train_loader self)) (length (train_pd (self, w))) in
  let o2 := pass_outcome (fd_fault (val_feed (s1, w)))
              (ld_len (val_loader s1)) (length (val_pd (s1, w))) in
  let banner := Print (LEpoch (training_epoch self + 1)) in
  let path := checkpoint_path (pth_dir self) epoch in
  let ck := epoch_checkpoint self epoch in
  exists t1 t2,
    loop_body epoch (self, w) =
      match o1 with
      | Raise e =>
          (Raise e, (s1, {| files := files w; trace := trace w ++ [banner] ++ t1 |}))
      | Ok _ =>
          match o2 with
          | Raise e =>
              (Raise e,
               (after_val s1,
                {| files := <[path := ck]> (files w);
                   trace := trace w ++ [banner] ++ t1 ++ [Save path ck] |}))
          | Ok _ =>
              (Ok tt,
               (after_epoch self,
                {| files := <[path := ck]> (files w);
                   trace := trace w ++ [banner] ++ t1 ++ [Save path ck] ++ t2 |}))
          end
      end
    /\ saved t1 = [] /\ banners t1 = [] /\ saved t2 = [] /\ banners t2 = [].
Proof.
  intros s1 o1 o2 banner path ck.
  unfold loop_body. unfold bind at 1. cbn [get_self fst snd].
  unfold bind at 1. unfold print, emit. cbn [fst snd files trace].
  unfold bind at 1. rewrite train_epoch_run.
  change (pass_outcome _ _ _) with o1. fold s1. fold banner. cbn [files trace].
  destruct o1 as [[]|e].
  2:{ eexists _, []. split; [by rewrite <- !app_assoc|].
      split; [apply saved_batch_events|].
      split; [apply banners_batch_events|]. done. }
  unfold bind at 1. cbn [get_self fst snd].
  unfold bind at 1. unfold save_checkpoint, bind at 1, write_file, emit.
  cbn [fst snd files trace].
  unfold bind at 1. rewrite val_run.
  change (pass_outcome _ _ _) with o2.
  replace (pth_dir s1) with (pth_dir self) by reflexivity. fold path.
  change {| ck_state_dict := model s1; ck_optimizer := optimizer s1;
            ck_epoch := epoch; ck_total_iter := total_iter s1 |} with ck.
  cbn [files trace].
  destruct o2 as [[]|e].
  - eexists (batch_events _ _ _ _ ++ [_; _; _; _]), [_; _; _; _].
    split.
    { unfold bind, get_self, modify_self. cbn [fst snd files trace].
      rewrite <- !app_assoc. reflexivity. }
    split. { rewrite saved_app, saved_batch_events. reflexivity. }
    split. { rewrite banners_app, banners_batch_events. reflexivity. }
    split; reflexivity.
  - eexists (batch_events _ _ _ _ ++ [_; _; _; _]), [].
    split. { rewrite <- !app_assoc. reflexivity. }
    split. { rewrite saved_app, saved_batch_events. reflexivity. }
    split. { rewrite banners_app, banners_batch_events. reflexivity. }
    split; reflexivity.
Qed.

Lemma batches_ahead_S (l : Loader) (n : nat) :
  batches_ahead l (S n) =
  (length (fd_batches (ld_feed l (ld_iters l))) + batches_ahead (next_iter l) n)%nat.
Proof.
  unfold batches_ahead. cbn [seq map sum_list sum_list_with].
  rewrite Nat.add_0_r. f_equal. rewrite <- seq_shift, map_map.
  f_equal. apply map_ext. intros i. cbn [next_iter ld_feed ld_iters].
  by replace (S (ld_iters l) + i)%nat with (ld_iters l + S i)%nat by lia.
Qed.

Lemma take_range a b (m : nat) :
  (m <= Z.to_nat (b - a))%nat -> take m (Py.range a b) = Py.range a (a + Z.of_nat m).
Proof.
  intros Hm. unfold Py.range. rewrite <- fmap_take, take_seq.
  by replace (m `min` Z.to_nat (b - a))%nat with (Z.to_nat (a + Z.of_nat m - a)) by lia.
Qed.

(** The loop over the epochs [l], whatever its outcome: [m] checkpoints
    saved, [n] epochs counted. *)
Lemma for_range_any (l : list Z) : forall st,
  let dir := pth_dir (fst st) in
  let r := fst (for_range loop_body l st) in
  let st' := snd (for_range loop_body l st) in
  exists n m : nat,
    (n <= m <= S n)%nat /\ (m <= length l)%nat
    /\ saved (trace (snd st')) = saved (trace (snd st)) ++ map (checkpoint_path dir) (take m l)
    /\ training_epoch (fst st') = training_epoch (fst st) + Z.of_nat n
    /\ total_iter (fst st) <= total_iter (fst st')
    /\ pth_dir (fst st') = dir
    /\ epochs (fst st') = epochs (fst st)
    /\ (r = Ok tt -> n = length l /\ m = length l)
    /\ (n <> m -> r <> Ok tt).
Proof.
  induction l as [|a l IH]; intros [self w] dir r st'.
  - exists 0%nat, 0%nat. subst r st' dir. cbn. rewrite app_nil_r.
    repeat split; try done; lia.
  - subst r st'. cbn [for_range]. unfold bind.
    destruct (loop_body_cases a self w)
      as (t1 & t2 & -> & Hs1 & _ & Hs2 & _).
    destruct (pass_outcome _ _ _) as [[]|e].
    2:{ exists 0%nat, 0%nat. cbn [fst snd trace].
        rewrite !saved_app, Hs1. unfold saved at 2. cbn [omap take map].
        rewrite !app_nil_r. unfold after_train; cbn.
        repeat split; try done; lia. }
    destruct (pass_outcome _ _ _) as [[]|e].
    2:{ exists 0%nat, 1%nat. cbn [fst snd trace].
        rewrite !saved_app, Hs1. unfold saved at 2 3. cbn [omap take map app].
        unfold after_val, after_train; cbn.
        repeat split; try done; try lia. }
    set (st1 := (after_epoch self, _)).
    destruct (IH st1) as (n & m & Hnm & Hm & Hsaved & Hep & Hit & Hdir & Hepochs & Hok & Hne).
    exists (S n), (S m).
    split; [lia|]. split; [cbn [length]; lia|].
    split.
    { rewrite Hsaved. subst st1. cbn [fst snd trace].
      rewrite !saved_app, Hs1, Hs2. unfold saved at 2 3. cbn [omap take map app].
      rewrite !app_nil_r, <- app_assoc. reflexivity. }
    split; [rewrite Hep; subst st1; unfold after_epoch; cbn; lia|].
    split; [etrans; [|exact Hit]; subst st1; unfold after_epoch, after_val, after_train; cbn; lia|].
    split; [by rewrite Hdir|]. split; [by rewrite Hepochs|].
    split.
    + intros Hr. destruct (Hok Hr) as [-> ->]. done.
    + intros Hnm'. apply Hne. lia.
Qed.

(** X7. On every exit of [loop], normal or not, the checkpoints saved by
    the call are those of the epochs [e0 .. k - 1] in order, where [k] is
    [training_epoch] or [training_epoch + 1]: at most the epoch whose
    validation did not finish is saved without being counted.
    [training_epoch] and [total_iter] never decrease, and on a normal exit
    [training_epoch] is the larger of its old value and [epochs]. *)
Theorem loop_exit_invariant st e1 :
  py_index (epochs (fst st)) = Ok e1 ->
  let e0 := training_epoch (fst st) in
  let dir := pth_dir (fst st) in
  let st' := snd (loop st) in
  exists k,
    saved (trace (snd st')) =
      saved (trace (snd st)) ++ map (checkpoint_path dir) (Py.range e0 k)
    /\ e0 <= training_epoch (fst st') <= k
    /\ k <= training_epoch (fst st') + 1
    /\ k <= Z.max e0 e1
    /\ total_iter (fst st) <= total_iter (fst st')
    /\ (fst (loop st) = Ok tt -> training_epoch (fst st') = Z.max e0 e1).
Proof.
  intros He1 e0 dir st'. subst st'. rewrite (loop_unfold _ _ He1). fold e0.
  destruct (for_range_any (Py.range e0 e1) st)
    as (n & m & Hnm & Hm & Hsaved & Hep & Hit & _ & _ & Hok & _).
  rewrite PyFacts.range_length in Hm.
  exists (e0 + Z.of_nat m).
  rewrite Hsaved, take_range by done. fold e0 in Hep.
  split; [done|]. split; [lia|]. split; [lia|]. split; [lia|]. split; [done|].
  intros Hr. destruct (Hok Hr) as [-> _]. rewrite PyFacts.range_length in Hep. lia.
Qed.

(** A completed iteration, in terms of the object before it. *)
Lemma loop_body_ok_run epoch self w st' :
  loop_body epoch (self, w) = (Ok tt, st') ->
  fst st' = after_epoch self
  /\ files (snd st') =
       <[checkpoint_path (pth_dir self) epoch := epoch_checkpoint self epoch]> (files w)
  /\ banners (trace (snd st')) = banners (trace w) ++ [training_epoch self + 1].
Proof.
  destruct (loop_body_cases epoch self w) as (t1 & t2 & -> & _ & Hb1 & _ & Hb2).
  destruct (pass_outcome _ _ _) as [[]|e]; [|done].
  destruct (pass_outcome _ _ _) as [[]|e]; [|done].
  intros [= <-]. cbn [fst snd files trace]. do 2 (split; [done|]).
  rewrite banners_app. f_equal.
  change (banners ([Print (LEpoch (training_epoch self + 1))]
                   ++ t1 ++ [Save (checkpoint_path (pth_dir self) epoch)
                               (epoch_checkpoint self epoch)] ++ t2)
          = [training_epoch self + 1]).
  rewrite !banners_app, Hb1, Hb2. reflexivity.
Qed.

(** A run of completed iterations: the step counter and the banners. *)
Lemma for_range_ok_run (l : list Z) : forall st st',
  for_range loop_body l st = (Ok tt, st') ->
  total_iter (fst st') =
    total_iter (fst st) + Z.of_nat (batches_ahead (train_loader (fst st)) (length l))
  /\ banners (trace (snd st')) =
       banners (trace (snd st))
       ++ map (fun i : nat => training_epoch (fst st) + Z.of_nat i + 1) (seq 0 (length l)).
Proof.
  induction l as [|a l IH]; intros [self w] st'.
  - cbn. intros [= <-]. cbn. rewrite app_nil_r. split; [lia|done].
  - cbn [for_range]. unfold bind.
    destruct (loop_body a (self, w)) as [[[]|e] st1] eqn:Hbody; [|done].
    intros Hrest. apply loop_body_ok_run in Hbody as (Hobj & _ & Hban).
    apply IH in Hrest as [Hit Hban']. rewrite Hit, Hban', Hban, Hobj.
    cbn [fst snd length]. rewrite batches_ahead_S. split.
    + unfold after_epoch, after_val, after_train. cbn. lia.
    + rewrite <- app_assoc. cbn [seq map app]. f_equal. f_equal; [lia|].
      rewrite <- seq_shift, map_map. apply map_ext. intros i.
      unfold after_epoch. cbn. lia.
Qed.

(** X8. A call of [loop] that returns leaves nothing to do: calling [loop]
    again returns at once, with the object and the world unchanged. *)
Theorem loop_twice st st' :
  loop st = (Ok tt, st') -> loop st' = (Ok tt, st').
Proof.
  intros Hloop.
  destruct (py_index (epochs (fst st))) as [e1|e] eqn:He1.
  2:{ unfold loop in Hloop. unfold bind at 1 in Hloop. cbn [get_self] in Hloop.
      unfold bind at 1 in Hloop. by rewrite He1 in Hloop. }
  rewrite (loop_unfold _ _ He1) in Hloop.
  destruct (for_range_any (Py.range (training_epoch (fst st)) e1) st)
    as (n & m & _ & _ & _ & Hep & _ & _ & Hepochs & Hok & _).
  rewrite Hloop in *. cbn [fst snd] in *.
  destruct (Hok eq_refl) as [-> _]. rewrite PyFacts.range_length in Hep.
  rewrite <- Hepochs in He1. rewrite (loop_unfold _ _ He1).
  rewrite PyFacts.range_nil by lia. reflexivity.
Qed.

(** The checkpoint of the last epoch of a completed run. *)
Lemma for_range_last_checkpoint st st' e1 :
  py_index (epochs (fst st)) = Ok e1 ->
  training_epoch (fst st) < e1 ->
  loop st = (Ok tt, st') ->
  exists ck,
    files (snd st') !! checkpoint_path (pth_dir (fst st')) (e1 - 1) = Some ck
    /\ ck_state_dict ck = model (fst st')
    /\ ck_optimizer ck = optimizer (fst st')
    /\ ck_total_iter ck = total_iter (fst st')
    /\ ck_epoch ck = training_epoch (fst st') - 1
    /\ training_epoch (fst st') = e1.
Proof.
  intros He1 Hlt Hloop. rewrite (loop_unfold _ _ He1) in Hloop.
  replace e1 with (e1 - 1 + 1) in Hloop at 1 by lia.
  rewrite PyFacts.range_snoc, for_range_app in Hloop by lia.
  destruct (for_range loop_body _ st) as [[[]|e] [selfk wk]] eqn:Hprefix; [|done].
  cbn [for_range] in Hloop. unfold bind in Hloop.
  destruct (loop_body (e1 - 1) (selfk, wk)) as [[[]|e] st1] eqn:Hbody; [|done].
  injection Hloop as <-.
  apply for_range_ok in Hprefix as (_ & _ & Hepk & _).
  apply loop_body_ok_run in Hbody as (Hobj & Hfiles & _).
  rewrite PyFacts.range_length in Hepk. cbn [fst] in Hepk.
  exists (epoch_checkpoint selfk (e1 - 1)).
  rewrite Hfiles, Hobj.
  replace (pth_dir (after_epoch selfk)) with (pth_dir selfk) by reflexivity.
  rewrite lookup_insert_eq. split; [done|].
  unfold epoch_checkpoint, after_epoch, after_val. cbn.
  repeat split; lia.
Qed.

(** X9. When [loop] returns after at least one epoch, the checkpoint of the
    last epoch is the final state of the run: it holds the model parameters,
    the optimizer state and the step count that the object has at the end,
    under the epoch index [training_epoch - 1]. *)
Theorem loop_last_checkpoint st st' e1 :
  py_index (epochs (fst st)) = Ok e1 ->
  training_epoch (fst st) < e1 ->
  loop st = (Ok tt, st') ->
  exists ck,
    files (snd st') !! checkpoint_path (pth_dir (fst st')) (e1 - 1) = Some ck
    /\ ck_state_dict ck = model (fst st')
    /\ ck_optimizer ck = optimizer (fst st')
    /\ ck_total_iter ck = total_iter (fst st')
    /\ ck_epoch ck = training_epoch (fst st') - 1
    /\ training_epoch (fst st') = e1.
Proof. apply for_range_last_checkpoint. Qed.

(** X10. When [loop] returns, [total_iter] has grown by the number of
    batches that the train loader produced over the iterations the call
    started, one iteration per epoch from [training_epoch] to [epochs - 1];
    validation batches are not counted. *)
Theorem loop_total_iter st st' e1 :
  py_index (epochs (fst st)) = Ok e1 ->
  loop st = (Ok tt, st') ->
  total_iter (fst st') =
    total_iter (fst st)
    + Z.of_nat (batches_ahead (train_loader (fst st))
                  (Z.to_nat (e1 - training_epoch (fst st)))).
Proof.
  intros He1 Hloop. rewrite (loop_unfold _ _ He1) in Hloop.
  apply for_range_ok_run in Hloop as [-> _].
  by rewrite PyFacts.range_length.
Qed.

(** X11. When [loop] returns it has printed one banner per epoch run, with
    the numbers [training_epoch + 1] up to [epochs]: the banner counts epochs
    from 1 while the checkpoint files count them from 0. *)
Theorem loop_banners st st' e1 :
  py_index (epochs (fst st)) = Ok e1 ->
  loop st = (Ok tt, st') ->
  banners (trace (snd st')) =
    banners (trace (snd st)) ++ Py.range (training_epoch (fst st) + 1) (e1 + 1).
Proof.
  intros He1 Hloop. rewrite (loop_unfold _ _ He1) in Hloop.
  apply for_range_ok_run in Hloop as [_ ->].
  rewrite PyFacts.range_length. unfold Py.range. f_equal.
  replace (e1 + 1 - (training_epoch (fst st) + 1)) with (e1 - training_epoch (fst st)) by lia.
  apply map_ext. intros i. lia.
Qed.

(** X12. If [epochs] is not an integer (a string, a float or null in the
    configuration), [loop] raises [TypeError] before it does anything: no
    banner, no pass, no checkpoint. *)
Theorem loop_epochs_not_integer st :
  (forall z, epochs (fst st) <> JInt z) ->
  (forall b, epochs (fst st) <> JBool b) ->
  loop st = (Raise TypeError, st).
Proof.
  intros Hint Hbool. unfold loop. unfold bind at 1. cbn [get_self].
  unfold bind at 1.
  destruct (epochs (fst st)) as [|b|z| |]; cbn; try done.
  - by destruct (Hbool b).
  - by destruct (Hint z).
Qed.

(** X13. If the epochs before [k] complete, the training pass of epoch [k]
    completes and the validation iterator then raises [x], [loop] raises [x]
    with the checkpoint of epoch [k] already written (it holds the
    parameters and the step count the object has at that point), while
    [training_epoch] is still [k]. *)
Theorem loop_val_iterator_raises st e1 k sk x :
  py_index (epochs (fst st)) = Ok e1 ->
  training_epoch (fst st) <= k < e1 ->
  for_range loop_body (Py.range (training_epoch (fst st)) k) st = (Ok tt, sk) ->
  fst (train_epoch sk) = Ok tt ->
  fd_fault (val_feed sk) = Some x ->
  let dir := pth_dir (fst st) in
  exists st' ck,
    loop st = (Raise x, st')
    /\ saved (trace (snd st')) =
         saved (trace (snd st))
         ++ map (checkpoint_path dir) (Py.range (training_epoch (fst st)) (k + 1))
    /\ files (snd st') !! checkpoint_path dir k = Some ck
    /\ ck_epoch ck = k
    /\ ck_state_dict ck = model (fst st')
    /\ ck_optimizer ck = optimizer (fst st')
    /\ ck_total_iter ck = total_iter (fst st')
    /\ training_epoch (fst st') = k.
Proof.
  intros He1 Hk Hprefix Htrain Hfault dir.
  rewrite (loop_unfold _ _ He1).
  rewrite (PyFacts.range_split _ k e1) by lia.
  rewrite for_range_app, Hprefix.
  rewrite (PyFacts.range_cons k e1) by lia. cbn [for_range].
  destruct sk as [selfk wk].
  destruct (loop_body_cases k selfk wk) as (t1 & t2 & Hbody & Hs1 & _).
  rewrite train_epoch_run in Htrain. cbn [fst] in Htrain.
  destruct (pass_outcome (fd_fault (train_feed (selfk, wk))) _ _) as [[]|e];
    [clear Htrain|done].
  unfold val_feed in Hfault, Hbody. cbn [fst] in Hfault, Hbody.
  replace (val_loader (after_train selfk)) with (val_loader selfk) in Hbody by reflexivity.
  rewrite Hfault in Hbody. cbn [pass_outcome] in Hbody.
  rewrite (bind_raise _ _ _ _ _ Hbody).
  apply for_range_ok in Hprefix as (Hdirk & _ & Hepk & _ & Hsavedk & _).
  cbn [fst snd] in Hdirk, Hepk, Hsavedk. fold dir in Hdirk, Hsavedk.
  eexists _, (epoch_checkpoint selfk k). split; [reflexivity|].
  cbn [fst snd files trace]. rewrite Hdirk.
  split.
  { rewrite !saved_app, Hs1, Hsavedk. unfold saved at 2 3. cbn [omap app].
    rewrite PyFacts.range_snoc, map_app by lia. by rewrite <- app_assoc. }
  split; [apply lookup_insert_eq|].
  rewrite PyFacts.range_length in Hepk.
  unfold epoch_checkpoint, after_val. cbn. repeat split; lia.
Qed.

Lemma for_range_keeps (l : list Z) : forall st,
  let self' := fst (snd (for_range loop_body l st)) in
  config self' = config (fst st) /\ exp_name self' = exp_name (fst st)
  /\ log_dir self' = log_dir (fst st) /\ pth_dir self' = pth_dir (fst st)
  /\ epochs self' = epochs (fst st).
Proof.
  induction l as [|a l IH]; intros [self w]; [done|].
  cbn [for_range]. unfold bind.
  destruct (loop_body_cases a self w) as (t1 & t2 & -> & _).
  destruct (pass_outcome _ _ _) as [[]|e]; [|repeat split; reflexivity].
  destruct (pass_outcome _ _ _) as [[]|e]; [|repeat split; reflexivity].
  set (st1 := (after_epoch self, _)). apply (IH st1).
Qed.

(** X22. [loop] never changes what construction fixed: whatever its
    outcome, the configuration, the experiment name, the two directories and
    [epochs] are the same after the call as before. *)
Theorem loop_keeps_configuration st :
  let self' := fst (snd (loop st)) in
  config self' = config (fst st)
  /\ exp_name self' = exp_name (fst st)
  /\ log_dir self' = log_dir (fst st)
  /\ pth_dir self' = pth_dir (fst st)
  /\ epochs self' = epochs (fst st).
Proof.
  intros self'. subst self'.
  destruct (py_index (epochs (fst st))) as [e1|e] eqn:He1.
  - rewrite (loop_unfold _ _ He1). apply for_range_keeps.
  - assert (loop st = (Raise e, st)) as ->; [|done].
    unfold loop. unfold bind at 1. cbn [get_self]. unfold bind at 1.
    by rewrite He1.
Qed.

End LoopFacts.

Section InitFacts.

Context `{T : Torch}.
Variable ecgNet : gmap string json -> Model.
Variable Adam : Model -> json -> Optim.
Variable get_dataloader : json -> json -> json -> json -> Loader.

Ltac rbind_step H :=
  match type of H with
  | rbind ?r _ = Ok _ =>
      let v := fresh "v" in
      destruct r as [v|] eqn:?; cbn [rbind] in H; [|discriminate H]
  end.

Lemma getitem_ok (d : gmap string json) key v : getitem d key = Ok v -> d !! key = Some v.
Proof. unfold getitem. destruct (d !! key); by intros [= ->]. Qed.


Lemma getitem_some (d : gmap string json) key v :
  d !! key = Some v -> getitem d key = Ok v.
Proof. unfold getitem. by intros ->. Qed.

(** X14. Construction reads ten keys with [params[...]]; it succeeds only
    if all ten are present. *)
Theorem init_needs_every_key cfg w self key :
  __init__ ecgNet Adam get_dataloader cfg w = Ok self ->
  key ∈ required_keys ->
  is_Some (cfg !! key).
Proof.
  intros Hinit Hkey. unfold __init__ in Hinit. do 21 rbind_step Hinit.
  destruct (if truthy _ then _ else _) as [[[m o] [e n]]|]; cbn [rbind] in Hinit; [|done].
  rbind_step Hinit.
  repeat match goal with H : getitem _ _ = Ok _ |- _ => apply getitem_ok in H end.
  unfold required_keys in Hkey.
  repeat (apply elem_of_cons in Hkey as [->|Hkey]; [by eexists|]).
  by apply elem_of_nil in Hkey.
Qed.


(** X16. If [exp_name] and [exp_dir] are both present and one of them is not
    a string, construction raises [TypeError] (from [osp.join]) before any
    other key is read. *)
Theorem init_path_type_error cfg w v1 v2 :
  cfg !! "exp_name" = Some v1 ->
  cfg !! "exp_dir" = Some v2 ->
  (forall s, v1 <> JStr s) \/ (forall s, v2 <> JStr s) ->
  __init__ ecgNet Adam get_dataloader cfg w = Raise TypeError.
Proof.
  intros H1 H2 Hns. unfold __init__.
  rewrite (getitem_some _ _ _ H1), (getitem_some _ _ _ H2). cbn [rbind].
  destruct v2 as [| | | |dir]; try done. cbn [rbind py_str].
  destruct v1 as [| | | |name]; try done.
  destruct Hns as [Hns|Hns]; [by destruct (Hns name)|by destruct (Hns dir)].
Qed.

(** X17. Without a truthy [model_path] (key absent, or null, false, 0 or the
    empty string) construction does not look at the stored checkpoints: the
    trainer is the same whatever the files are, with the network built from
    the configuration, a new optimizer on it, train mode, and both counters
    at 0. *)
Theorem init_fresh_start cfg w self :
  __init__ ecgNet Adam get_dataloader cfg w = Ok self ->
  truthy (default (JBool false) (cfg !! "model_path")) = false ->
  (forall w', __init__ ecgNet Adam get_dataloader cfg w' = Ok self)
  /\ model self = ecgNet cfg
  /\ (exists lr, cfg !! "lr" = Some lr /\ optimizer self = Adam (ecgNet cfg) lr)
  /\ training self = true
  /\ training_epoch self = 0 /\ total_iter self = 0
  /\ config self = cfg
  /\ cfg !! "epochs" = Some (epochs self).
Proof.
  intros Hinit Hpath. split.
  { intros w'. rewrite <- Hinit. unfold __init__. by rewrite Hpath. }
  unfold __init__ in Hinit. do 21 rbind_step Hinit.
  rewrite Hpath in Hinit. cbn [rbind] in Hinit. rbind_step Hinit.
  injection Hinit as <-. cbn.
  repeat match goal with H : getitem _ _ = Ok _ |- _ => apply getitem_ok in H end.
  repeat split; try done. by eexists.
Qed.

(** Construction from a checkpoint. *)
Lemma init_loaded cfg w self :
  __init__ ecgNet Adam get_dataloader cfg w = Ok self ->
  truthy (default (JBool false) (cfg !! "model_path")) = true ->
  exists p ck,
    cfg !! "model_path" = Some (JStr p) /\ p <> EmptyString
    /\ files w !! p = Some ck
    /\ model self = ck_state_dict ck
    /\ optimizer self = ck_optimizer ck
    /\ training_epoch self = ck_epoch ck
    /\ total_iter self = ck_total_iter ck.
Proof.
  intros Hinit Hpath. unfold __init__ in Hinit. do 21 rbind_step Hinit.
  rewrite Hpath in Hinit.
  destruct (load_checkpoint _ _) as [[[m o] [e n]]|] eqn:Hload;
    cbn [rbind] in Hinit; [|done].
  rbind_step Hinit. injection Hinit as <-. cbn.
  apply load_checkpoint_ok in Hload as (p & ck & Hp & Hck & -> & -> & -> & ->).
  exists p, ck. destruct (cfg !! "model_path") as [mp|] eqn:Hmp; cbn in Hp, Hpath.
  - subst mp. cbn in Hpath. split; [done|]. split; [|done].
    intros ->. by rewrite decide_True in Hpath.
  - done.
Qed.

(** X18. With a truthy [model_path], construction succeeds only if the path
    is a string naming a stored checkpoint, and the trainer then carries the
    model parameters, the optimizer state, the epoch index and the step count
    of that checkpoint; the network built from the configuration is
    overwritten.  (Loading is as the specification describes it.) *)
Theorem init_resume cfg w self :
  __init__ ecgNet Adam get_dataloader cfg w = Ok self ->
  truthy (default (JBool false) (cfg !! "model_path")) = true ->
  exists p ck,
    cfg !! "model_path" = Some (JStr p) /\ p <> EmptyString
    /\ files w !! p = Some ck
    /\ model self = ck_state_dict ck
    /\ optimizer self = ck_optimizer ck
    /\ training_epoch self = ck_epoch ck
    /\ total_iter self = ck_total_iter ck.
Proof. apply init_loaded. Qed.

Lemma append_nonempty (q s : string) : s <> EmptyString -> q +:+ s <> EmptyString.
Proof.
  intros Hs Hq. apply (f_equal String.length) in Hq.
  rewrite PyFacts.length_append in Hq. destruct s; [done|]. simpl in Hq. lia.
Qed.

Lemma ends_with_sep_append (q s : string) :
  s <> EmptyString -> Py.ends_with_sep (q +:+ s) = Py.ends_with_sep s.
Proof.
  intros Hs. induction q as [|c q IH]; [done|].
  simpl. destruct (q +:+ s) as [|d r] eqn:E.
  - by destruct (append_nonempty q s Hs).
  - exact IH.
Qed.

(** A directory obtained by joining a last component that is not empty and
    has no separator at either end. *)
Lemma join_step_tail (p last : string) :
  last <> EmptyString ->
  Py.starts_with_sep last = false ->
  Py.ends_with_sep last = false ->
  Py.join_step p last <> EmptyString
  /\ Py.ends_with_sep (Py.join_step p last) = false.
Proof.
  intros Hne Hstart Hend. unfold Py.join_step. rewrite Hstart.
  destruct (_ || _).
  - split; [by apply append_nonempty|]. by rewrite ends_with_sep_append.
  - split; [by apply append_nonempty|].
    rewrite ends_with_sep_append by done.
    destruct last as [|c r]; [done|]. simpl. destruct r; [|exact Hend].
    simpl in Hend. simpl in Hstart.
    destruct (decide (c = "/"%char)); done.
Qed.

Lemma checkpoint_path_layout (dir : string) (e : Z) :
  dir <> EmptyString -> Py.ends_with_sep dir = false ->
  checkpoint_path dir e = dir +:+ "/" +:+ Py.format_0_8 e +:+ ".pth".
Proof.
  intros Hne Hend. unfold checkpoint_path, Py.join. cbn [fold_left].
  unfold Py.join_step. rewrite PyFacts.starts_with_sep_format, Hend.
  by rewrite decide_False.
Qed.

(** X19. The two directories of a constructed trainer are
    [join(exp_dir, exp_name, "logs")] and [join(exp_dir, exp_name,
    "checkpoints")]; they are never the same directory, and the checkpoint
    of epoch [e] is the file [pth_dir/NNNNNNNN.pth], directly inside
    [pth_dir], for every configuration. *)
Theorem init_layout cfg w self :
  __init__ ecgNet Adam get_dataloader cfg w = Ok self ->
  (exists name dir,
     cfg !! "exp_name" = Some (JStr name) /\ cfg !! "exp_dir" = Some (JStr dir)
     /\ log_dir self = Py.join dir [name; "logs"]
     /\ pth_dir self = Py.join dir [name; "checkpoints"])
  /\ log_dir self <> pth_dir self
  /\ forall e,
       checkpoint_path (pth_dir self) e
       = pth_dir self +:+ "/" +:+ Py.format_0_8 e +:+ ".pth".
Proof.
  intros Hinit. unfold __init__ in Hinit. do 21 rbind_step Hinit.
  destruct (if truthy _ then _ else _) as [[[m o] [e n]]|]; cbn [rbind] in Hinit; [|done].
  rbind_step Hinit. injection Hinit as <-. cbn [log_dir pth_dir].
  repeat match goal with H : getitem _ _ = Ok _ |- _ => apply getitem_ok in H end.
  destruct v as [| | | |name]; try done. destruct v0 as [| | | |dir]; try done.
  repeat match goal with H : py_str _ = Ok _ |- _ => injection H as <- end.
  split; [by exists name, dir|].
  unfold Py.join. cbn [fold_left]. set (p := Py.join_step dir name).
  split.
  - unfold Py.join_step. cbn [Py.starts_with_sep]. rewrite !decide_False by done.
    destruct (_ || _); intros H; apply (inj (String.append p)) in H; done.
  - intros e'. apply checkpoint_path_layout; by apply join_step_tail.
Qed.

Lemma checkpoint_path_nonempty (dir : string) (e : Z) :
  checkpoint_path dir e <> EmptyString.
Proof.
  unfold checkpoint_path, Py.join. cbn [fold_left]. unfold Py.join_step.
  rewrite PyFacts.starts_with_sep_format.
  assert (Py.format_0_8 e +:+ ".pth" <> EmptyString) by by apply append_nonempty.
  destruct (_ || _); repeat apply append_nonempty; done.
Qed.

(** X20. Save and resume, end to end: when [loop] has returned after at
    least one epoch and a new trainer is constructed with [model_path] set to
    the file of the last epoch, the new trainer has the model parameters, the
    optimizer state and the step count of the old one at its end, and a
    [training_epoch] one less: its [loop] would start with the epoch that
    was trained last.  (Saving and loading are as the specification
    describes them.) *)
Theorem resume_from_last_checkpoint st st' e1 cfg self :
  py_index (epochs (fst st)) = Ok e1 ->
  training_epoch (fst st) < e1 ->
  loop st = (Ok tt, st') ->
  cfg !! "model_path" = Some (JStr (checkpoint_path (pth_dir (fst st')) (e1 - 1))) ->
  __init__ ecgNet Adam get_dataloader cfg (snd st') = Ok self ->
  model self = model (fst st')
  /\ optimizer self = optimizer (fst st')
  /\ total_iter self = total_iter (fst st')
  /\ training_epoch self = training_epoch (fst st') - 1
  /\ training_epoch (fst st') = e1.
Proof.
  intros He1 Hlt Hloop Hcfg Hinit.
  destruct (for_range_last_checkpoint st st' e1 He1 Hlt Hloop)
    as (ck & Hck & Hm & Ho & Hit & Hep & Hfin).
  apply init_loaded in Hinit as (p & ck' & Hp & _ & Hck' & -> & -> & -> & ->).
  - rewrite Hcfg in Hp. injection Hp as <-. rewrite Hck in Hck'.
    injection Hck' as <-. done.
  - rewrite Hcfg. cbn. rewrite decide_False; [done|apply checkpoint_path_nonempty].
Qed.

End InitFacts.

Section ProgressFacts.

Context `{T : Torch}.

Lemma div_100_succ (z : Z) :
  (z + 1) / 100 = z / 100 + (if decide ((z + 1) mod 100 = 0) then 1 else 0).
Proof. case_decide; Z.div_mod_to_equations; lia. Qed.

Lemma progress_count (len : nat) (losses : list float) : forall i : nat,
  Z.of_nat (length (concat (imap (fun (j : nat) (loss : float) =>
    if decide ((Z.of_nat (i + j) + 1) mod 100 = 0)
    then [(Z.of_nat (i + j) + 1, len, loss)] else []) losses)))
  = (Z.of_nat i + Z.of_nat (length losses)) / 100 - Z.of_nat i / 100.
Proof.
  induction losses as [|l ls IH]; intros i.
  - simpl length. rewrite Z.add_0_r. lia.
  - rewrite imap_cons. cbn [concat]. rewrite length_app, Nat2Z.inj_add.
    assert (Z.of_nat (length (concat (imap
              ((fun (j : nat) (loss : float) =>
                  if decide ((Z.of_nat (i + j) + 1) mod 100 = 0)
                  then [(Z.of_nat (i + j) + 1, len, loss)] else []) ∘ S) ls)))
            = (Z.of_nat (S i) + Z.of_nat (length ls)) / 100 - Z.of_nat (S i) / 100)
      as ->.
    { rewrite <- (IH (S i)). do 3 f_equal. apply imap_ext.
      intros j x _. unfold compose.
      by replace (i + S j)%nat with (S i + j)%nat by lia. }
    rewrite Nat.add_0_r. cbn [length]. rewrite !Nat2Z.inj_succ. unfold Z.succ.
    rewrite (div_100_succ (Z.of_nat i)).
    replace (Z.of_nat i + (Z.of_nat (length ls) + 1))
      with (Z.of_nat i + 1 + Z.of_nat (length ls)) by lia.
    case_decide; cbn [length]; lia.
Qed.

Lemma progress_lines_app (tr1 tr2 : list event) :
  progress_lines (tr1 ++ tr2) = progress_lines tr1 ++ progress_lines tr2.
Proof. apply omap_app. Qed.

(** The progress lines that a training pass adds. *)
Lemma train_epoch_progress_lines st :
  let losses :=
    batch_losses true (optimizer (fst st), model (fst st)) (fd_batches (train_feed st)) in
  progress_lines (trace (snd (snd (train_epoch st)))) =
  progress_lines (trace (snd st))
  ++ concat (imap (fun (j : nat) (loss : float) =>
       if decide ((Z.of_nat (0 + j) + 1) mod 100 = 0)
       then [(Z.of_nat (0 + j) + 1, ld_len (train_loader (fst st)), loss)] else [])
       losses).
Proof.
  destruct st as [self w]. intros losses. rewrite train_epoch_run. cbn [fst snd].
  destruct (pass_outcome _ _ _) as [[]|e]; cbn [snd trace];
    rewrite !progress_lines_app, progress_lines_batch_events; [|done].
  by rewrite app_nil_r.
Qed.

(** X21. A training pass over [n] batches prints [n / 100] progress lines
    (integer division), whether it completes or raises; a pass of fewer than
    100 batches prints none. *)
Theorem train_epoch_progress_count st :
  let n := length (fd_batches (train_feed st)) in
  Z.of_nat (length (progress_lines (trace (snd (snd (train_epoch st))))))
  = Z.of_nat (length (progress_lines (trace (snd st)))) + Z.of_nat n / 100
  /\ ((n < 100)%nat ->
        progress_lines (trace (snd (snd (train_epoch st))))
        = progress_lines (trace (snd st))).
Proof.
  intros n. rewrite train_epoch_progress_lines.
  set (losses := batch_losses _ _ _).
  pose proof (progress_count (ld_len (train_loader (fst st))) losses 0) as Hc.
  unfold losses in Hc at 2. rewrite batch_losses_length in Hc. fold n in Hc.
  change (Z.of_nat 0) with 0 in Hc.
  rewrite Z.add_0_l, Z.div_0_l, Z.sub_0_r in Hc by lia.
  set (new := concat _) in *.
  split; [rewrite length_app; lia|].
  intros Hn. rewrite Z.div_small in Hc by lia.
  destruct new; [by rewrite app_nil_r|cbn [length] in Hc; lia].
Qed.

End ProgressFacts.

(** ** The further properties on the small framework *)

Module DemoMore.
Import Demo.
#[local] Existing Instance Demo.torch.

Lemma pass_accuracy_is_match_ratio_witness :
  let accuracy (pd gt : list Z) : Q :=
    (inject_Z (Z.of_nat (matches pd gt)) / inject_Z (Z.of_nat (length pd)))%Q in
  let on (bs : list Batch) :=
    let l := {| ld_len := length bs;
                ld_feed := fun _ => {| fd_batches := bs; fd_end := Exhausted |};
                ld_iters := 0 |} in
    (set_val_loader l (set_train_loader l (trainer "train.json" 0 0 2)), world0) in
  let st := (trainer "train.json" 0 0 2, world0) in
  let right := on [[(1, 1)]; [(2, 2)]] in
  let wrong := on [[(0, 1)]; [(1, 2)]] in
  (fst (train_epoch st) = Ok tt
   /\ fst (val st) = Ok (2 # 2)%Q
   /\ (exists x,
         trace (snd (snd (train_epoch st))) =
           [AddScalar "Train loss (iterations)" (SFloat 1%Q) 0;
            AddScalar "Train loss (iterations)" (SFloat 1%Q) 1;
            Print (LTrainLoss x); Print (LTrainAcc (accuracy [1; 0; 2] [1; 1; 2]));
            AddScalar "Train loss (epochs)" (SFloat x) 0;
            AddScalar "Train CLASS accuracy" (SRat (accuracy [1; 0; 2] [1; 1; 2])) 0])
   /\ trace (snd (snd (val st))) =
        [Print (LValLoss (2 # 2)%Q); Print (LValAcc (accuracy [1; 0; 2] [1; 1; 2]));
         AddScalar "Validation loss" (SFloat (2 # 2)%Q) 0;
         AddScalar "Validation CLASS accuracy" (SRat (accuracy [1; 0; 2] [1; 1; 2])) 0])
  /\ (fst (train_epoch right) = Ok tt
      /\ fst (val right) = Ok (2 # 2)%Q
      /\ (accuracy (train_pd right) (train_gt right) == 1)%Q
      /\ (accuracy (val_pd right) (val_gt right) == 1)%Q)
  /\ (fst (train_epoch wrong) = Ok tt
      /\ fst (val wrong) = Ok (2 # 2)%Q
      /\ (accuracy (train_pd wrong) (train_gt wrong) == 0)%Q
      /\ (accuracy (val_pd wrong) (val_gt wrong) == 0)%Q).
Proof.
  intros accuracy on st right wrong.
  assert (fst (train_epoch st) = Ok tt) as H1 by (vm_compute; reflexivity).
  assert (fst (val st) = Ok (2 # 2)%Q) as H2 by (vm_compute; reflexivity).
  assert (fst (train_epoch right) = Ok tt) as R1 by (vm_compute; reflexivity).
  assert (fst (val right) = Ok (2 # 2)%Q) as R2 by (vm_compute; reflexivity).
  assert (fst (train_epoch wrong) = Ok tt) as W1 by (vm_compute; reflexivity).
  assert (fst (val wrong) = Ok (2 # 2)%Q) as W2 by (vm_compute; reflexivity).
  split; [|split].
  - split; [exact H1|]. split; [exact H2|].
    destruct (pass_accuracy_is_match_ratio st) as [Htrain Hval]. split.
    + destruct (Htrain H1) as [[x Hx] _]. exists x. exact Hx.
    + destruct (Hval _ H2) as [Hx _]. exact Hx.
  - split; [exact R1|]. split; [exact R2|].
    destruct (pass_accuracy_is_match_ratio right) as [Htrain Hval]. split.
    + destruct (Htrain R1) as (_ & _ & Hall & _). exact (Hall eq_refl).
    + destruct (Hval _ R2) as (_ & _ & Hall & _). exact (Hall eq_refl).
  - split; [exact W1|]. split; [exact W2|].
    destruct (pass_accuracy_is_match_ratio wrong) as [Htrain Hval]. split.
    + destruct (Htrain W1) as (_ & _ & _ & Hnone). exact (Hnone eq_refl).
    + destruct (Hval _ W2) as (_ & _ & _ & Hnone). exact (Hnone eq_refl).
Defined.

(** A batch on which the framework raises: the pass stops there. *)
Example train_epoch_batch_raises :
  let crash := {| ld_len := 3;
                  ld_feed := fun _ =>
                    {| fd_batches := [[(1, 1)]];
                       fd_end := BatchRaises [(0, 1)] (OtherError "RuntimeError") |};
                  ld_iters := 0 |} in
  let st := (set_train_loader crash (trainer "train.json" 0 0 2), world0) in
  fst (train_epoch st) = Raise (OtherError "RuntimeError")
  /\ total_iter (fst (snd (train_epoch st))) = 1
  /\ trace (snd (snd (train_epoch st))) =
       [AddScalar "Train loss (iterations)" (SFloat 1%Q) 0]
  /\ fst (loop st) = Raise (OtherError "RuntimeError")
  /\ saved (trace (snd (snd (loop st)))) = [].
Proof. vm_compute. repeat split. Qed.

Lemma train_epoch_epoch_metrics_witness :
  let st := (trainer "train.json" 0 0 2, world0) in
  fst (train_epoch st) = Ok tt
  /\ trace (snd (snd (train_epoch st))) =
       [AddScalar "Train loss (iterations)" (SFloat 1%Q) 0;
        AddScalar "Train loss (iterations)" (SFloat 1%Q) 1;
        Print (LTrainLoss (2 # 2)%Q); Print (LTrainAcc (2 # 3)%Q);
        AddScalar "Train loss (epochs)" (SFloat (2 # 2)%Q) 0;
        AddScalar "Train CLASS accuracy" (SRat (2 # 3)%Q) 0].
Proof.
  intros st.
  assert (fst (train_epoch st) = Ok tt) as H by (vm_compute; reflexivity).
  split; [exact H|].
  rewrite (train_epoch_epoch_metrics st H). vm_compute. reflexivity.
Defined.

Lemma passes_leave_files_witness :
  let st := (trainer "train.json" 0 0 2, world0) in
  let bad := (set_val_loader empty (trainer "train.json" 0 0 2), world0) in
  fst (val st) = Ok (2 # 2)%Q
  /\ length (trace (snd (snd (val st)))) = 4%nat
  /\ fst (val bad) = Raise ZeroDivisionError
  /\ snd (snd (val bad)) = snd bad.
Proof.
  intros st bad.
  assert (fst (val st) = Ok (2 # 2)%Q) as H1 by (vm_compute; reflexivity).
  assert (fst (val bad) = Raise ZeroDivisionError) as H2 by (vm_compute; reflexivity).
  split; [exact H1|]. split.
  - destruct (passes_leave_files st) as (_ & _ & _ & _ & _ & _ & _ & Hok).
    exact (Hok _ H1).
  - split; [exact H2|].
    destruct (passes_leave_files bad) as (_ & _ & _ & _ & _ & _ & Hraise & _).
    exact (Hraise _ H2).
Defined.

Lemma loop_exit_invariant_witness :
  let st := (trainer "flaky.json" 0 0 3, world0) in
  py_index (epochs (fst st)) = Ok 3
  /\ exists k,
       saved (trace (snd (snd (loop st)))) =
         map (checkpoint_path "exp/run/checkpoints") (Py.range 0 k)
       /\ training_epoch (fst (snd (loop st))) <= k <= 3.
Proof.
  intros st. split; [reflexivity|].
  destruct (loop_exit_invariant st 3 eq_refl) as (k & Hsaved & Hep & _ & Hk & _).
  exists k. split; [exact Hsaved|]. split; [apply Hep | exact Hk].
Defined.

Lemma loop_twice_witness :
  let st := (trainer "train.json" 0 0 2, world0) in
  let st' := snd (loop st) in
  loop st = (Ok tt, st') /\ loop st' = (Ok tt, st').
Proof.
  intros st st'.
  assert (loop st = (Ok tt, st')) as H by (vm_compute; reflexivity).
  split; [exact H | exact (loop_twice st st' H)].
Defined.

Lemma loop_last_checkpoint_witness :
  let st := (trainer "train.json" 0 0 2, world0) in
  let st' := snd (loop st) in
  py_index (epochs (fst st)) = Ok 2
  /\ training_epoch (fst st) < 2
  /\ loop st = (Ok tt, st')
  /\ exists ck,
       files (snd st') !! "exp/run/checkpoints/00000001.pth" = Some ck
       /\ ck_state_dict ck = model (fst st')
       /\ ck_total_iter ck = total_iter (fst st').
Proof.
  intros st st'.
  assert (loop st = (Ok tt, st')) as H by (vm_compute; reflexivity).
  split; [reflexivity|]. split; [reflexivity|]. split; [exact H|].
  destruct (loop_last_checkpoint st st' 2 eq_refl eq_refl H)
    as (ck & Hck & Hm & _ & Hit & _).
  exists ck. split; [exact Hck|]. split; [exact Hm | exact Hit].
Defined.

Lemma loop_total_iter_witness :
  let st := (trainer "train.json" 0 0 2, world0) in
  let st' := snd (loop st) in
  py_index (epochs (fst st)) = Ok 2
  /\ loop st = (Ok tt, st')
  /\ total_iter (fst st') = 0 + Z.of_nat (batches_ahead steady 2).
Proof.
  intros st st'.
  assert (loop st = (Ok tt, st')) as H by (vm_compute; reflexivity).
  split; [reflexivity|]. split; [exact H|].
  exact (loop_total_iter st st' 2 eq_refl H).
Defined.

Lemma loop_banners_witness :
  let st := (trainer "train.json" 0 0 2, world0) in
  let st' := snd (loop st) in
  py_index (epochs (fst st)) = Ok 2
  /\ loop st = (Ok tt, st')
  /\ banners (trace (snd st')) = [] ++ Py.range 1 3.
Proof.
  intros st st'.
  assert (loop st = (Ok tt, st')) as H by (vm_compute; reflexivity).
  split; [reflexivity|]. split; [exact H|].
  exact (loop_banners st st' 2 eq_refl H).
Defined.

Lemma loop_epochs_not_integer_witness :
  let self := trainer "train.json" 0 0 2 in
  let bad := ({| config := config self; exp_name := exp_name self;
                 log_dir := log_dir self; pth_dir := pth_dir self;
                 model := model self; training := true;
                 optimizer := optimizer self;
                 train_loader := train_loader self;
                 val_loader := val_loader self;
                 training_epoch := 0; total_iter := 0;
                 epochs := JStr "10" |}, world0) in
  loop bad = (Raise TypeError, bad).
Proof.
  intros self bad. apply (loop_epochs_not_integer bad); intros ?; discriminate.
Defined.

Lemma loop_val_iterator_raises_witness :
  let st := (set_val_loader flaky (trainer "train.json" 0 0 3), world0) in
  let sk := snd (for_range loop_body (Py.range 0 1) st) in
  py_index (epochs (fst st)) = Ok 3
  /\ training_epoch (fst st) <= 1 < 3
  /\ for_range loop_body (Py.range (training_epoch (fst st)) 1) st = (Ok tt, sk)
  /\ fst (train_epoch sk) = Ok tt
  /\ fd_fault (val_feed sk) = Some (LoaderError "read")
  /\ exists st',
       loop st = (Raise (LoaderError "read"), st')
       /\ saved (trace (snd st')) =
            ["exp/run/checkpoints/00000000.pth"; "exp/run/checkpoints/00000001.pth"]
       /\ training_epoch (fst st') = 1.
Proof.
  intros st sk.
  assert (py_index (epochs (fst st)) = Ok 3) as H1 by reflexivity.
  assert (training_epoch (fst st) <= 1 < 3) as H2 by (split; [discriminate|reflexivity]).
  assert (for_range loop_body (Py.range (training_epoch (fst st)) 1) st = (Ok tt, sk))
    as H3 by (vm_compute; reflexivity).
  assert (fst (train_epoch sk) = Ok tt) as H4 by (vm_compute; reflexivity).
  assert (fd_fault (val_feed sk) = Some (LoaderError "read"))
    as H5 by (vm_compute; reflexivity).
  do 5 (split; [assumption|]).
  destruct (loop_val_iterator_raises st 3 1 sk (LoaderError "read") H1 H2 H3 H4 H5)
    as (st' & ck & Hloop & Hsaved & _ & _ & _ & _ & _ & Hep).
  exists st'. split; [exact Hloop|]. split; [exact Hsaved | exact Hep].
Defined.

Lemma train_epoch_progress_count_witness :
  let st := (trainer "train.json" 0 0 2, world0) in
  (length (fd_batches (train_feed st)) < 100)%nat
  /\ progress_lines (trace (snd (snd (train_epoch st)))) = [].
Proof.
  intros st.
  assert (length (fd_batches (train_feed st)) < 100)%nat as H
    by (vm_compute; repeat constructor).
  split; [exact H|].
  exact (proj2 (train_epoch_progress_count st) H).
Defined.

Lemma init_needs_every_key_witness :
  let cfg := base_config "train.json" 2 in
  new cfg world0 = Ok (trainer "train.json" 0 0 2)
  /\ "val_json" ∈ required_keys
  /\ is_Some (cfg !! "val_json").
Proof.
  intros cfg.
  assert (new cfg world0 = Ok (trainer "train.json" 0 0 2)) as H
    by (vm_compute; reflexivity).
  assert ("val_json" ∈ required_keys) as Hk by (unfold required_keys; set_solver).
  split; [exact H|]. split; [exact Hk|].
  exact (init_needs_every_key ecgNet Adam get_dataloader cfg world0 _ "val_json" H Hk).
Defined.


Lemma init_path_type_error_witness :
  let cfg := <["exp_name" := JInt 7]> (base_config "train.json" 2) in
  cfg !! "exp_name" = Some (JInt 7)
  /\ cfg !! "exp_dir" = Some (JStr "exp")
  /\ new cfg world0 = Raise TypeError.
Proof.
  intros cfg. split; [reflexivity|]. split; [reflexivity|].
  apply (init_path_type_error ecgNet Adam get_dataloader cfg world0 (JInt 7) (JStr "exp"));
    [reflexivity | reflexivity | left; intros s; discriminate].
Defined.

Lemma init_fresh_start_witness :
  let cfg := <["model_path" := JStr EmptyString]> (base_config "train.json" 2) in
  let w := {| files := {["a.pth" := {| ck_state_dict := 9%nat; ck_optimizer := 9%nat;
                                       ck_epoch := 5; ck_total_iter := 50 |}]};
              trace := [] |} in
  exists self,
    new cfg world0 = Ok self
    /\ truthy (default (JBool false) (cfg !! "model_path")) = false
    /\ new cfg w = Ok self
    /\ training_epoch self = 0 /\ total_iter self = 0.
Proof.
  intros cfg w.
  destruct (new cfg world0) as [self|e] eqn:Hnew; [|vm_compute in Hnew; discriminate Hnew].
  assert (truthy (default (JBool false) (cfg !! "model_path")) = false) as Hp
    by reflexivity.
  exists self. split; [reflexivity|]. split; [exact Hp|].
  destruct (init_fresh_start ecgNet Adam get_dataloader cfg world0 self Hnew Hp)
    as (Hany & _ & _ & _ & Hep & Hit & _).
  split; [exact (Hany w)|]. split; [exact Hep | exact Hit].
Defined.

Lemma init_resume_witness :
  let ck := {| ck_state_dict := 4%nat; ck_optimizer := 4%nat;
               ck_epoch := 1; ck_total_iter := 4 |} in
  let w := {| files := {["exp/run/checkpoints/00000001.pth" := ck]}; trace := [] |} in
  let cfg := <["model_path" := JStr "exp/run/checkpoints/00000001.pth"]>
               (base_config "train.json" 2) in
  exists self,
    new cfg w = Ok self
    /\ truthy (default (JBool false) (cfg !! "model_path")) = true
    /\ model self = 4%nat /\ training_epoch self = 1.
Proof.
  intros ck w cfg.
  destruct (new cfg w) as [self|e] eqn:Hnew; [|vm_compute in Hnew; discriminate Hnew].
  assert (truthy (default (JBool false) (cfg !! "model_path")) = true) as Hp
    by reflexivity.
  exists self. split; [reflexivity|]. split; [exact Hp|].
  destruct (init_resume ecgNet Adam get_dataloader cfg w self Hnew Hp)
    as (p & ck' & Hpath & _ & Hck & -> & _ & -> & _).
  vm_compute in Hpath. injection Hpath as <-.
  vm_compute in Hck. injection Hck as <-. split; reflexivity.
Defined.

Lemma init_layout_witness :
  let cfg := base_config "train.json" 2 in
  new cfg world0 = Ok (trainer "train.json" 0 0 2)
  /\ log_dir (trainer "train.json" 0 0 2) <> pth_dir (trainer "train.json" 0 0 2)
  /\ checkpoint_path (pth_dir (trainer "train.json" 0 0 2)) 12
     = pth_dir (trainer "train.json" 0 0 2) +:+ "/" +:+ Py.format_0_8 12 +:+ ".pth".
Proof.
  intros cfg.
  assert (new cfg world0 = Ok (trainer "train.json" 0 0 2)) as H
    by (vm_compute; reflexivity).
  split; [exact H|].
  destruct (init_layout ecgNet Adam get_dataloader cfg world0 _ H) as (_ & Hne & Hpath).
  split; [exact Hne | exact (Hpath 12)].
Defined.

Lemma resume_from_last_checkpoint_witness :
  let st := (trainer "train.json" 0 0 2, world0) in
  let st' := snd (loop st) in
  let cfg := <["model_path" := JStr "exp/run/checkpoints/00000001.pth"]>
               (base_config "train.json" 2) in
  exists self,
    py_index (epochs (fst st)) = Ok 2
    /\ training_epoch (fst st) < 2
    /\ loop st = (Ok tt, st')
    /\ new cfg (snd st') = Ok self
    /\ total_iter self = total_iter (fst st')
    /\ training_epoch self = training_epoch (fst st') - 1.
Proof.
  intros st st' cfg.
  assert (loop st = (Ok tt, st')) as H by (vm_compute; reflexivity).
  destruct (new cfg (snd st')) as [self|e] eqn:Hnew;
    [|vm_compute in Hnew; discriminate Hnew].
  exists self. split; [reflexivity|]. split; [reflexivity|]. split; [exact H|].
  split; [reflexivity|].
  destruct (resume_from_last_checkpoint ecgNet Adam get_dataloader st st' 2 cfg self
              eq_refl eq_refl H) as (_ & _ & Hit & Hep & _).
  - vm_compute. reflexivity.
  - exact Hnew.
  - split; [exact Hit | exact Hep].
Defined.

End DemoMore.
